(** * Legacy signing of Mina user commands and strings

    A shallow embedding of the legacy signing module of snarkyjs
    (payments, stake delegations and plain strings): the translation of
    JSON commands, the legacy hash-input encoding, and the signing and
    verification entry points.

    The module drives a number of collaborators that live in other files
    of the library (keys, base58, memo, the Schnorr primitives).  They are
    gathered in the class [Primitives]; everything below is stated for an
    arbitrary instance of it. *)

From Stdlib Require Import ZArith Ascii String List Lia DecimalString DecimalN.
From stdpp Require Import base option gmap strings list.

Local Open Scope string_scope.
Local Open Scope list_scope.
Local Open Scope Z_scope.

(** * Exceptions

    A JavaScript call either returns a value or throws.  The kinds of
    failure are those the design names, together with the [TypeError] the
    language raises when a property of [undefined] or [null] is read. *)

Inductive error : Type :=
| TypeError
| MalformedKey
| MalformedNumeric
| MalformedSignature
| InvalidMemo.

Inductive exn (A : Type) : Type :=
| Ok (a : A)
| Throw (e : error).

Arguments Ok {A} a.
Arguments Throw {A} e.

#[global] Instance exn_ret : MRet exn := fun A a => Ok a.

#[global] Instance exn_bind : MBind exn := fun A B k m =>
  match m with
  | Ok a => k a
  | Throw e => Throw e
  end.

#[global] Instance exn_fmap : FMap exn := fun A B f m =>
  match m with
  | Ok a => Ok (f a)
  | Throw e => Throw e
  end.

(** [try { return body } catch { return handler }] *)
Definition try_catch {A : Type} (body : exn A) (handler : A) : exn A :=
  match body with
  | Ok a => Ok a
  | Throw _ => Ok handler
  end.

Definition throws {A : Type} (m : exn A) : Prop := exists e, m = Throw e.

(** * JavaScript values

    The JSON-shaped arguments are ordinary JavaScript values at run time;
    the TypeScript types are erased.  Numbers are kept by their integer
    value only (no arithmetic is done on them here), and an array is an
    object whose keys are its indices. *)

#[warnings="-register-all"] Inductive jsval : Type :=
| JUndefined
| JNull
| JBool (b : bool)
| JNumber (n : Z)
| JString (s : string)
| JObject (props : gmap string jsval).

(** Reading the property [k] of [v], as [v.k] or as the destructuring
    pattern [{ k }] does: a [TypeError] on [undefined] and [null], the own
    property of an object, and [undefined] where there is none.  (None of
    the names read in this module is a property of a primitive wrapper or
    of [Object.prototype].) *)
Definition get (v : jsval) (k : string) : exn jsval :=
  match v with
  | JUndefined | JNull => Throw TypeError
  | JObject props => Ok (default JUndefined (props !! k))
  | JBool _ | JNumber _ | JString _ => Ok JUndefined
  end.

(** * The hash-input accumulator *)

Module HashInputLegacy.

(** Modelled from the spec: [HashInputLegacy] of
    provable/poseidon-bigint.js is not part of the sources at hand.  It is
    the ordered accumulator of field elements and bits; [append]
    concatenates two accumulators in order, the first argument first. *)
Record t : Type := mk { get_fields : list Z; get_bits : list bool }.

Definition empty : t := mk [] [].

Definition bits (bs : list bool) : t := mk [] bs.

Definition append (input1 input2 : t) : t :=
  mk (get_fields input1 ++ get_fields input2)
     (get_bits input1 ++ get_bits input2).

End HashInputLegacy.

(** [[h0, h1, ...].reduce(HashInputLegacy.append)]: a left fold that starts
    from the first element (the array is never empty here). *)
Definition reduce_append (hs : list HashInputLegacy.t) : HashInputLegacy.t :=
  match hs with
  | [] => HashInputLegacy.empty
  | h :: rest => fold_left HashInputLegacy.append rest h
  end.

(** * Fixed-width unsigned integers *)

(** Modelled from the spec: the fixed-width unsigned integer codec of
    provable/field-bigint.js is not part of the sources at hand.  [toBits]
    gives exactly [width] bits, least significant first: the layout in
    which the legacy token id, the integer 1, is a 1-bit followed by 63
    zero bits. *)
Definition uint_toBits (width : nat) (x : Z) : list bool :=
  map (fun i => Z.testbit x (Z.of_nat i)) (seq 0 width).

Module UInt64.
Definition t : Type := Z.
Definition toBits (x : t) : list bool := uint_toBits 64 x.
(** [UInt64(0)] *)
Definition zero : t := 0.
End UInt64.

Module UInt32.
Definition t : Type := Z.
Definition toBits (x : t) : list bool := uint_toBits 32 x.
End UInt32.

(** * Bytes *)

(** Modelled from the spec: [bytesToBits] of provable/binable.js is not
    part of the sources at hand.  Each byte gives its eight bits, bit 0
    first, and the groups follow the order of the bytes. *)
Definition bytesToBits (bytes : list Z) : list bool :=
  flat_map (fun byte => map (fun i => Z.testbit byte (Z.of_nat i)) (seq 0 8))
           bytes.

(** Modelled from the spec: [stringToBytes] of provable/binable.js is not
    part of the sources at hand.  It is the UTF-8 byte sequence of the
    text; a text is held here as a [string], that is by its UTF-8 bytes. *)
Definition stringToBytes (s : string) : list Z :=
  map (fun c => Z.of_N (N_of_ascii c)) (list_ascii_of_string s).

(** * The collaborators *)

Class Primitives : Type := {
  PublicKey : Type;
  PrivateKey : Type;
  Signature : Type;
  NetworkId : Type;
  (** curve-bigint.js *)
  PrivateKey_fromBase58 : string -> exn PrivateKey;
  PrivateKey_toPublicKey : PrivateKey -> PublicKey;
  PublicKey_fromBase58 : string -> exn PublicKey;
  PublicKey_fromJSON : jsval -> exn PublicKey;
  PublicKey_toInputLegacy : PublicKey -> HashInputLegacy.t;
  (** field-bigint.js *)
  UInt64_fromJSON : jsval -> exn UInt64.t;
  UInt32_fromJSON : jsval -> exn UInt32.t;
  (** memo.js *)
  Memo_fromString : jsval -> exn string;
  Memo_toBits : string -> list bool;
  (** signature.js *)
  Signature_fromJSON : jsval -> exn Signature;
  Signature_toJSON : Signature -> jsval;
  signLegacy : HashInputLegacy.t -> PrivateKey -> NetworkId -> Signature;
  verifyLegacy :
    Signature -> HashInputLegacy.t -> PublicKey -> NetworkId -> exn bool;
}.

(** Modelled from the spec: [signLegacy], [verifyLegacy] and the codec of
    [Signature] (signature.js) are not part of the sources at hand.  They
    are the domain-separated Schnorr-style pair of the design: a signature
    survives its JSON form, and a signature made with a private key
    verifies against the public key derived from it, on the same input and
    network. *)
Class PrimitivesSound (P : Primitives) : Prop := {
  Signature_fromJSON_toJSON :
    forall s : Signature, Signature_fromJSON (Signature_toJSON s) = Ok s;
  verifyLegacy_signLegacy :
    forall (input : HashInputLegacy.t) (sk : PrivateKey) (net : NetworkId),
      verifyLegacy (signLegacy input sk net) input
                   (PrivateKey_toPublicKey sk) net = Ok true;
}.

(** * The signing module *)

(** type Tag = 'Payment' | 'StakeDelegation': a string at run time. *)
Abbreviation Tag := string (only parsing).

Section SignLegacy.

Context `{P : Primitives}.

Record Common : Type := {
  fee : UInt64.t;
  feePayer : PublicKey;
  nonce : UInt32.t;
  validUntil : UInt32.t;
  memo : string;
}.

Record Body : Type := {
  tag : Tag;
  source : PublicKey;
  receiver : PublicKey;
  amount : UInt64.t;
}.

Record UserCommand : Type := {
  common : Common;
  body : Body;
}.

(** The object literal [{ Payment: 0, StakeDelegation: 1 }]. *)
Definition tag_codes : gmap string Z :=
  {[ "Payment" := 0; "StakeDelegation" := 1 ]}.

(** [int & mask], where [int] is the result of a lookup in [tag_codes]:
    [None] stands for a value that is not a number ([undefined] for an
    unknown key, a function or an object for a key inherited from
    [Object.prototype]), which [&] takes for 0. *)
Definition js_bitand (int : option Z) (mask : Z) : Z :=
  Z.land (default 0 int) mask.

Definition Boolean (n : Z) : bool := negb (n =? 0).

Definition tagToInput (tag : Tag) : HashInputLegacy.t :=
  let int := tag_codes !! tag in
  let bits := map Boolean [js_bitand int 4; js_bitand int 2; js_bitand int 1] in
  HashInputLegacy.bits bits.

(** The tag encoding as the specification words it, for comparison with
    [tagToInput]: only the two variants are accepted, and any other tag
    is a failure. *)
Definition tagToInput_checked (tag : Tag) : exn HashInputLegacy.t :=
  match tag_codes !! tag with
  | Some int =>
      Ok (HashInputLegacy.bits
            [Z.testbit int 2; Z.testbit int 1; Z.testbit int 0])
  | None => Throw TypeError
  end.

(** [[true, ...Array<boolean>(63).fill(false)]] *)
Definition legacyTokenId : list bool := true :: repeat false 63.

(** Mina_base.Transaction_union_payload.Body.to_input_legacy *)
Definition bodyToInputLegacy (b : Body) : HashInputLegacy.t :=
  reduce_append [
    tagToInput (tag b);
    PublicKey_toInputLegacy (source b);
    PublicKey_toInputLegacy (receiver b);
    HashInputLegacy.bits legacyTokenId;
    HashInputLegacy.bits (UInt64.toBits (amount b));
    HashInputLegacy.bits [false] (* token_locked *)
  ].

(** Mina_base.Signed_command_payload.Common.to_input_legacy *)
Definition commonToInputLegacy (c : Common) : HashInputLegacy.t :=
  reduce_append [
    HashInputLegacy.bits (UInt64.toBits (fee c));
    HashInputLegacy.bits legacyTokenId;
    PublicKey_toInputLegacy (feePayer c);
    HashInputLegacy.bits (UInt32.toBits (nonce c));
    HashInputLegacy.bits (UInt32.toBits (validUntil c));
    HashInputLegacy.bits (Memo_toBits (memo c))
  ].

Definition toInputLegacy (command : UserCommand) : HashInputLegacy.t :=
  HashInputLegacy.append
    (commonToInputLegacy (common command))
    (bodyToInputLegacy (body command)).

Definition commonFromJson (c : jsval) : exn Common :=
  fee_json ← get c "fee";
  fee ← UInt64_fromJSON fee_json;
  feePayer_json ← get c "feePayer";
  feePayer ← PublicKey_fromJSON feePayer_json;
  nonce_json ← get c "nonce";
  nonce ← UInt32_fromJSON nonce_json;
  validUntil_json ← get c "validUntil";
  validUntil ← UInt32_fromJSON validUntil_json;
  memo_json ← get c "memo";
  memo ← Memo_fromString memo_json;
  mret {| fee := fee; feePayer := feePayer; nonce := nonce;
          validUntil := validUntil; memo := memo |}.

Definition paymentFromJson (payment : jsval) : exn UserCommand :=
  (* the parameter pattern { common, body: { source, receiver, amount } } *)
  common_json ← get payment "common";
  body_json ← get payment "body";
  source_json ← get body_json "source";
  receiver_json ← get body_json "receiver";
  amount_json ← get body_json "amount";
  (* the returned object *)
  common ← commonFromJson common_json;
  source ← PublicKey_fromJSON source_json;
  receiver ← PublicKey_fromJSON receiver_json;
  amount ← UInt64_fromJSON amount_json;
  mret {| common := common;
          body := {| tag := "Payment"; source := source;
                     receiver := receiver; amount := amount |} |}.

Definition delegationFromJson (delegation : jsval) : exn UserCommand :=
  (* the parameter pattern { common, body: { delegator, newDelegate } } *)
  common_json ← get delegation "common";
  body_json ← get delegation "body";
  delegator_json ← get body_json "delegator";
  newDelegate_json ← get body_json "newDelegate";
  (* the returned object *)
  common ← commonFromJson common_json;
  source ← PublicKey_fromJSON delegator_json;
  receiver ← PublicKey_fromJSON newDelegate_json;
  mret {| common := common;
          body := {| tag := "StakeDelegation"; source := source;
                     receiver := receiver; amount := UInt64.zero |} |}.

Definition signUserCommand (command : UserCommand)
    (privateKeyBase58 : string) (networkId : NetworkId) : exn jsval :=
  let input := toInputLegacy command in
  privateKey ← PrivateKey_fromBase58 privateKeyBase58;
  let signature := signLegacy input privateKey networkId in
  mret (Signature_toJSON signature).

Definition signPayment (payment : jsval)
    (privateKeyBase58 : string) (networkId : NetworkId) : exn jsval :=
  command ← paymentFromJson payment;
  signUserCommand command privateKeyBase58 networkId.

Definition signStakeDelegation (delegation : jsval)
    (privateKeyBase58 : string) (networkId : NetworkId) : exn jsval :=
  command ← delegationFromJson delegation;
  signUserCommand command privateKeyBase58 networkId.

Definition verifyUserCommand (command : UserCommand) (signatureJson : jsval)
    (publicKeyBase58 : string) (networkId : NetworkId) : exn bool :=
  let input := toInputLegacy command in
  signature ← Signature_fromJSON signatureJson;
  publicKey ← PublicKey_fromBase58 publicKeyBase58;
  verifyLegacy signature input publicKey networkId.

Definition verifyPayment (payment signatureJson : jsval)
    (publicKeyBase58 : string) (networkId : NetworkId) : exn bool :=
  try_catch
    (command ← paymentFromJson payment;
     verifyUserCommand command signatureJson publicKeyBase58 networkId)
    false.

Definition verifyStakeDelegation (delegation signatureJson : jsval)
    (publicKeyBase58 : string) (networkId : NetworkId) : exn bool :=
  try_catch
    (command ← delegationFromJson delegation;
     verifyUserCommand command signatureJson publicKeyBase58 networkId)
    false.

Definition stringToInput (string : string) : HashInputLegacy.t :=
  let bits :=
    concat (map (fun byte => rev (bytesToBits [byte])) (stringToBytes string)) in
  HashInputLegacy.bits bits.

Definition signString (string : string)
    (privateKeyBase58 : String.string) (networkId : NetworkId) : exn jsval :=
  let input := stringToInput string in
  privateKey ← PrivateKey_fromBase58 privateKeyBase58;
  let signature := signLegacy input privateKey networkId in
  mret (Signature_toJSON signature).

Definition verifyStringSignature (string : string) (signatureJson : jsval)
    (publicKeyBase58 : String.string) (networkId : NetworkId) : exn bool :=
  try_catch
    (let input := stringToInput string in
     signature ← Signature_fromJSON signatureJson;
     publicKey ← PublicKey_fromBase58 publicKeyBase58;
     verifyLegacy signature input publicKey networkId)
    false.

End SignLegacy.

(** * A small instance of the collaborators

    Keys and signatures over [N] with decimal strings in place of base58,
    and an arithmetic stand-in for the Schnorr primitives.  It serves to
    run the definitions on examples. *)

Module Toy.

Inductive network : Type := mainnet | testnet.

Definition network_code (net : network) : Z :=
  match net with mainnet => 1 | testnet => 0 end.

Definition decimal (s : string) : option N :=
  N.of_uint <$> NilEmpty.uint_of_string s.

Definition print (n : N) : string :=
  NilEmpty.string_of_uint (N.to_uint n).

Definition key_of_string (s : string) : exn N :=
  match decimal s with
  | Some n => Ok n
  | None => Throw MalformedKey
  end.

Definition key_of_json (v : jsval) : exn N :=
  match v with
  | JString s => key_of_string s
  | _ => Throw MalformedKey
  end.

Definition uint_of_json (width : Z) (v : jsval) : exn Z :=
  match v with
  | JString s =>
      match decimal s with
      | Some n =>
          if Z.of_N n <? 2 ^ width then Ok (Z.of_N n)
          else Throw MalformedNumeric
      | None => Throw MalformedNumeric
      end
  | _ => Throw MalformedNumeric
  end.

Definition memo_of_json (v : jsval) : exn string :=
  match v with
  | JString s =>
      if (String.length s <=? 32)%nat then Ok s else Throw InvalidMemo
  | _ => Throw TypeError
  end.

Definition memo_bits (s : string) : list bool :=
  bytesToBits (firstn 32 (stringToBytes s ++ repeat 0 32)).

Definition public_of_private (sk : N) : N := (2 * sk + 1)%N.

Definition key_input (pk : N) : HashInputLegacy.t :=
  HashInputLegacy.mk [Z.of_N (pk / 2)] [N.odd pk].

Definition digest (input : HashInputLegacy.t) (pk : N) (net : network) : N :=
  let start := Z.of_N pk + network_code net in
  let after_fields :=
    fold_left (fun acc f => (31 * acc + f) mod 1000003)
              (HashInputLegacy.get_fields input) start in
  Z.to_N (fold_left (fun acc (b : bool) => (2 * acc + Z.b2z b) mod 1000003)
                    (HashInputLegacy.get_bits input) after_fields).

Definition sign (input : HashInputLegacy.t) (sk : N) (net : network) : N * N :=
  let h := digest input (public_of_private sk) net in
  (h, (h + sk)%N).

Definition verify (sig : N * N) (input : HashInputLegacy.t) (pk : N)
    (net : network) : exn bool :=
  if N.even pk then Throw MalformedKey
  else Ok ((fst sig =? digest input pk net)%N
           && (public_of_private (snd sig - fst sig) =? pk)%N).

Definition signature_to_json (sig : N * N) : jsval :=
  JObject {[ "field" := JString (print (fst sig));
             "scalar" := JString (print (snd sig)) ]}.

Definition signature_of_json (v : jsval) : exn (N * N) :=
  field ← get v "field";
  scalar ← get v "scalar";
  match field, scalar with
  | JString f, JString s =>
      match decimal f, decimal s with
      | Some r, Some z => Ok (r, z)
      | _, _ => Throw MalformedSignature
      end
  | _, _ => Throw MalformedSignature
  end.

#[global] Instance primitives : Primitives := {|
  PublicKey := N;
  PrivateKey := N;
  Signature := N * N;
  NetworkId := network;
  PrivateKey_fromBase58 := key_of_string;
  PrivateKey_toPublicKey := public_of_private;
  PublicKey_fromBase58 := key_of_string;
  PublicKey_fromJSON := key_of_json;
  PublicKey_toInputLegacy := key_input;
  UInt64_fromJSON := uint_of_json 64;
  UInt32_fromJSON := uint_of_json 32;
  Memo_fromString := memo_of_json;
  Memo_toBits := memo_bits;
  Signature_fromJSON := signature_of_json;
  Signature_toJSON := signature_to_json;
  signLegacy := sign;
  verifyLegacy := verify;
|}.

Definition common_json : jsval :=
  JObject {[ "fee" := JString "1000000";
             "feePayer" := JString "11";
             "nonce" := JString "0";
             "validUntil" := JString "4294967295";
             "memo" := JString "hello" ]}.

Definition payment_json : jsval :=
  JObject {[ "common" := common_json;
             "body" := JObject {[ "source" := JString "11";
                                  "receiver" := JString "7";
                                  "amount" := JString "5000000000" ]} ]}.

Definition delegation_body : gmap string jsval :=
  {[ "delegator" := JString "11"; "newDelegate" := JString "7" ]}.

Definition delegation_json : jsval :=
  JObject {[ "common" := common_json; "body" := JObject delegation_body ]}.

(** The same delegation with an extraneous [amount]. *)
Definition delegation_json_amount : jsval :=
  JObject {[ "common" := common_json;
             "body" := JObject (<["amount" := JString "42"]> delegation_body) ]}.

(** A common part whose fee has all its 64 bits set. *)
Definition a_common : Common :=
  {| fee := 18446744073709551615; feePayer := 11%N; nonce := 0;
     validUntil := 4294967295; memo := "hello" |}.

Definition a_payment : UserCommand :=
  {| common := a_common;
     body := {| tag := "Payment"; source := 11%N; receiver := 7%N;
                amount := 0 |} |}.

Definition a_delegation : UserCommand :=
  {| common := a_common;
     body := {| tag := "StakeDelegation"; source := 11%N; receiver := 7%N;
                amount := 0 |} |}.

End Toy.

(** Two more instances, on the keys and the JSON forms of [Toy].
    [Blind] signs without looking at the hash input: a signature is the
    public key of the signer with the code of the network.  [Exact] signs
    the hash input itself, by its code as a number. *)

Module Blind.

Definition sign (input : HashInputLegacy.t) (sk : N) (net : Toy.network)
    : N * N :=
  (Toy.public_of_private sk, Z.to_N (Toy.network_code net)).

Definition verify (sig : N * N) (input : HashInputLegacy.t) (pk : N)
    (net : Toy.network) : exn bool :=
  if N.even pk then Throw MalformedKey
  else Ok ((fst sig =? pk)%N
           && (snd sig =? Z.to_N (Toy.network_code net))%N).

Definition primitives : Primitives := {|
  PublicKey := N;
  PrivateKey := N;
  Signature := N * N;
  NetworkId := Toy.network;
  PrivateKey_fromBase58 := Toy.key_of_string;
  PrivateKey_toPublicKey := Toy.public_of_private;
  PublicKey_fromBase58 := Toy.key_of_string;
  PublicKey_fromJSON := Toy.key_of_json;
  PublicKey_toInputLegacy := Toy.key_input;
  UInt64_fromJSON := Toy.uint_of_json 64;
  UInt32_fromJSON := Toy.uint_of_json 32;
  Memo_fromString := Toy.memo_of_json;
  Memo_toBits := Toy.memo_bits;
  Signature_fromJSON := Toy.signature_of_json;
  Signature_toJSON := Toy.signature_to_json;
  signLegacy := sign;
  verifyLegacy := verify;
|}.

(** fee 1000000, fee payer 11, nonce 0, valid until 4294967295, memo
    hello; source 11, receiver 7, amount 0. *)
Definition a_common : @Common primitives :=
  @Build_Common primitives 1000000 11%N 0 4294967295 "hello".

Definition a_payment : @UserCommand primitives :=
  @Build_UserCommand primitives a_common
    (@Build_Body primitives "Payment" 11%N 7%N 0).

Definition a_delegation : @UserCommand primitives :=
  @Build_UserCommand primitives a_common
    (@Build_Body primitives "StakeDelegation" 11%N 7%N 0).

End Blind.

Module Exact.

Definition code (input : HashInputLegacy.t) (net : Toy.network) : N :=
  (2 * Npos (encode (HashInputLegacy.get_fields input,
                     HashInputLegacy.get_bits input))
   + Z.to_N (Toy.network_code net))%N.

Definition sign (input : HashInputLegacy.t) (sk : N) (net : Toy.network)
    : N * N :=
  (code input net, (code input net + sk)%N).

Definition verify (sig : N * N) (input : HashInputLegacy.t) (pk : N)
    (net : Toy.network) : exn bool :=
  if N.even pk then Throw MalformedKey
  else Ok ((fst sig =? code input net)%N
           && (Toy.public_of_private (snd sig - fst sig) =? pk)%N).

Definition primitives : Primitives := {|
  PublicKey := N;
  PrivateKey := N;
  Signature := N * N;
  NetworkId := Toy.network;
  PrivateKey_fromBase58 := Toy.key_of_string;
  PrivateKey_toPublicKey := Toy.public_of_private;
  PublicKey_fromBase58 := Toy.key_of_string;
  PublicKey_fromJSON := Toy.key_of_json;
  PublicKey_toInputLegacy := Toy.key_input;
  UInt64_fromJSON := Toy.uint_of_json 64;
  UInt32_fromJSON := Toy.uint_of_json 32;
  Memo_fromString := Toy.memo_of_json;
  Memo_toBits := Toy.memo_bits;
  Signature_fromJSON := Toy.signature_of_json;
  Signature_toJSON := Toy.signature_to_json;
  signLegacy := sign;
  verifyLegacy := verify;
|}.

(** fee 1000000, fee payer 11, nonce 0, valid until 4294967295, memo
    hello; source 11, receiver 7, amount 0. *)
Definition a_common : @Common primitives :=
  @Build_Common primitives 1000000 11%N 0 4294967295 "hello".

Definition a_payment : @UserCommand primitives :=
  @Build_UserCommand primitives a_common
    (@Build_Body primitives "Payment" 11%N 7%N 0).

Definition a_delegation : @UserCommand primitives :=
  @Build_UserCommand primitives a_common
    (@Build_Body primitives "StakeDelegation" 11%N 7%N 0).

End Exact.

(** * The fetch module: requests and caches

    The module keeps four tables in module variables and talks to a
    GraphQL endpoint.  The tables and the two default endpoints make up
    [State], which every function takes and gives back; what the network
    answers to one request and what [Date.now()] reads are arguments of the
    function that asks.  An [async] function is taken as one run from call
    to completion, a rejected promise being a throw; timers are left
    out. *)

Module Fetch.

(** What a call throws or a promise rejects with: an exception of the
    language or of a decoder, [Error(message)], or whatever [fetch] and
    [response.json()] fail with. *)
Inductive thrown : Type :=
| Builtin (e : error)
| Error (message : string)
| Failure (reason : jsval).

Inductive outcome (A : Type) : Type :=
| Returns (a : A)
| Throws (t : thrown).

Arguments Returns {A} a.
Arguments Throws {A} t.

#[global] Instance outcome_ret : MRet outcome := fun A a => Returns a.

#[global] Instance outcome_bind : MBind outcome := fun A B k m =>
  match m with
  | Returns a => k a
  | Throws t => Throws t
  end.

Definition lift {A : Type} (m : exn A) : outcome A :=
  match m with
  | Ok a => Returns a
  | Throw e => Throws (Builtin e)
  end.

(** type FetchError = { statusCode: number; statusText: string } *)
Record FetchError : Type := {
  statusCode : Z;
  statusText : string;
}.

(** The [Response] of [fetch], as far as it is read: [ok], [status],
    [statusText] and what [json()] resolves to or rejects with. *)
Record Response : Type := {
  ok : bool;
  status : Z;
  response_statusText : string;
  json : outcome jsval;
}.

(** The collaborators of the module: the classes of the library and the
    functions of mina/account.js, [JSON.stringify] on a thrown value (as
    the text a template string makes of its result) and the test
    [instanceof AbortSignal]. *)
Class Collaborators : Type := {
  PublicKey : Type;
  Field : Type;
  Account : Type;
  PartialAccount : Type;
  LedgerHash : Type;
  EpochSeed : Type;
  StateHash : Type;
  UInt32 : Type;
  UInt64 : Type;
  PublicKey_toBase58 : PublicKey -> string;
  TokenId_toBase58 : Field -> string;
  TokenId_default : Field;
  Account_publicKey : Account -> PublicKey;
  Account_tokenId : Account -> Field;
  fillPartialAccount : PartialAccount -> outcome Account;
  parseFetchedAccount : jsval -> outcome Account;
  accountQuery : string -> string -> string;
  LedgerHash_fromBase58 : jsval -> outcome LedgerHash;
  EpochSeed_fromBase58 : jsval -> outcome EpochSeed;
  StateHash_fromBase58 : jsval -> outcome StateHash;
  UInt32_from : jsval -> outcome UInt32;
  UInt64_from : jsval -> outcome UInt64;
  JSON_stringify : thrown -> outcome string;
  instanceof_AbortSignal : thrown -> bool;
}.

Section Functions.

Context `{C : Collaborators}.

(** ** The state of the module *)

Record EpochData : Type := {
  ledger_hash : LedgerHash;
  ledger_totalCurrency : UInt64;
  seed : EpochSeed;
  startCheckpoint : StateHash;
  lockCheckpoint : StateHash;
  epochLength : UInt32;
}.

Record NetworkValue : Type := {
  snarkedLedgerHash : LedgerHash;
  blockchainLength : UInt32;
  minWindowDensity : UInt32;
  totalCurrency : UInt64;
  globalSlotSinceGenesis : UInt32;
  nextEpochData : EpochData;
  stakingEpochData : EpochData;
}.

Record AccountCacheEntry : Type := {
  cached_account : Account;
  cached_account_graphqlEndpoint : string;
  cached_account_timestamp : Z;
}.

Record NetworkCacheEntry : Type := {
  cached_network : NetworkValue;
  cached_network_graphqlEndpoint : string;
  cached_network_timestamp : Z;
}.

Record AccountToFetch : Type := {
  toFetch_publicKey : string;
  toFetch_tokenId : string;
  toFetch_graphqlEndpoint : string;
}.

Record NetworkToFetch : Type := {
  network_graphqlEndpoint : string;
}.

(** The module variables.  The four tables are plain objects used as maps
    from strings; their keys are never names of [Object.prototype]. *)
Record State : Type := {
  defaultGraphqlEndpoint : string;
  archiveGraphqlEndpoint : string;
  accountCache : gmap string AccountCacheEntry;
  networkCache : gmap string NetworkCacheEntry;
  accountsToFetch : gmap string AccountToFetch;
  networksToFetch : gmap string NetworkToFetch;
}.

Definition initial : State :=
  {| defaultGraphqlEndpoint := "none";
     archiveGraphqlEndpoint := "none";
     accountCache := ∅;
     networkCache := ∅;
     accountsToFetch := ∅;
     networksToFetch := ∅ |}.

Definition setGraphqlEndpoint (graphqlEndpoint : string) (st : State) : State :=
  {| defaultGraphqlEndpoint := graphqlEndpoint;
     archiveGraphqlEndpoint := archiveGraphqlEndpoint st;
     accountCache := accountCache st;
     networkCache := networkCache st;
     accountsToFetch := accountsToFetch st;
     networksToFetch := networksToFetch st |}.

Definition setArchiveGraphqlEndpoint (graphqlEndpoint : string) (st : State)
    : State :=
  {| defaultGraphqlEndpoint := defaultGraphqlEndpoint st;
     archiveGraphqlEndpoint := graphqlEndpoint;
     accountCache := accountCache st;
     networkCache := networkCache st;
     accountsToFetch := accountsToFetch st;
     networksToFetch := networksToFetch st |}.

(** ** The tables *)

Definition markAccountToBeFetched (publicKey : PublicKey) (tokenId : Field)
    (graphqlEndpoint : string) (st : State) : State :=
  let publicKeyBase58 := PublicKey_toBase58 publicKey in
  let tokenBase58 := TokenId_toBase58 tokenId in
  {| defaultGraphqlEndpoint := defaultGraphqlEndpoint st;
     archiveGraphqlEndpoint := archiveGraphqlEndpoint st;
     accountCache := accountCache st;
     networkCache := networkCache st;
     accountsToFetch :=
       <[publicKeyBase58 +:+ ";" +:+ tokenBase58 +:+ ";" +:+ graphqlEndpoint
         := {| toFetch_publicKey := publicKeyBase58;
               toFetch_tokenId := tokenBase58;
               toFetch_graphqlEndpoint := graphqlEndpoint |}]>
         (accountsToFetch st);
     networksToFetch := networksToFetch st |}.

Definition markNetworkToBeFetched (graphqlEndpoint : string) (st : State)
    : State :=
  {| defaultGraphqlEndpoint := defaultGraphqlEndpoint st;
     archiveGraphqlEndpoint := archiveGraphqlEndpoint st;
     accountCache := accountCache st;
     networkCache := networkCache st;
     accountsToFetch := accountsToFetch st;
     networksToFetch :=
       <[graphqlEndpoint := {| network_graphqlEndpoint := graphqlEndpoint |}]>
         (networksToFetch st) |}.

Definition accountCacheKey (publicKey : PublicKey) (tokenId : Field)
    (graphqlEndpoint : string) : string :=
  PublicKey_toBase58 publicKey +:+ ";" +:+ TokenId_toBase58 tokenId +:+ ";"
  +:+ graphqlEndpoint.

(** A parameter [graphqlEndpoint = defaultGraphqlEndpoint]: [None] is the
    argument left out. *)
Definition endpoint_or_default (graphqlEndpoint : option string) (st : State)
    : string :=
  default (defaultGraphqlEndpoint st) graphqlEndpoint.

Definition getCachedAccount (publicKey : PublicKey) (tokenId : Field)
    (graphqlEndpoint : option string) (st : State) : option Account :=
  cached_account
    <$> accountCache st
        !! accountCacheKey publicKey tokenId
             (endpoint_or_default graphqlEndpoint st).

Definition getCachedNetwork (graphqlEndpoint : option string) (st : State)
    : option NetworkValue :=
  cached_network
    <$> networkCache st !! endpoint_or_default graphqlEndpoint st.

Definition addCachedAccountInternal (account : Account)
    (graphqlEndpoint : string) (now : Z) (st : State) : State :=
  {| defaultGraphqlEndpoint := defaultGraphqlEndpoint st;
     archiveGraphqlEndpoint := archiveGraphqlEndpoint st;
     accountCache :=
       <[accountCacheKey (Account_publicKey account) (Account_tokenId account)
           graphqlEndpoint
         := {| cached_account := account;
               cached_account_graphqlEndpoint := graphqlEndpoint;
               cached_account_timestamp := now |}]>
         (accountCache st);
     networkCache := networkCache st;
     accountsToFetch := accountsToFetch st;
     networksToFetch := networksToFetch st |}.

Definition addCachedAccount (partialAccount : PartialAccount)
    (graphqlEndpoint : option string) (now : Z) (st : State)
    : State * outcome unit :=
  let graphqlEndpoint := endpoint_or_default graphqlEndpoint st in
  match fillPartialAccount partialAccount with
  | Returns account =>
      (addCachedAccountInternal account graphqlEndpoint now st, Returns tt)
  | Throws t => (st, Throws t)
  end.

(** ** Requests *)

Definition inferError (error : thrown) : outcome FetchError :=
  errorMessage ← JSON_stringify error;
  if instanceof_AbortSignal error then
    mret {| statusCode := 408;
            statusText := "Request Timeout: " +:+ errorMessage |}
  else
    mret {| statusCode := 500;
            statusText := "Unknown Error: " +:+ errorMessage |}.

(** The pairs [[response, undefined]] and [[undefined, error]]. *)
Definition checkResponseStatus (response : Response)
    : outcome (jsval * option FetchError) :=
  if ok response then
    data ← json response;
    mret (data, None)
  else
    mret (JUndefined,
          Some {| statusCode := status response;
                  statusText := response_statusText response |}).

(** [fetched] is what the call of [fetch] comes to. *)
Definition makeGraphqlRequest (query : string)
    (graphqlEndpoint : option string) (fetched : outcome Response)
    (st : State) : outcome (jsval * option FetchError) :=
  let graphqlEndpoint := endpoint_or_default graphqlEndpoint st in
  if String.eqb graphqlEndpoint "none" then
    Throws (Error "Should have made a graphql request, but don't know to which endpoint. Try calling `setGraphqlEndpoint` first.")
  else
    match (response ← fetched; checkResponseStatus response) with
    | Returns result => Returns result
    | Throws error =>
        fetchError ← inferError error;
        mret (JUndefined, Some fetchError)
    end.

Record FetchAccountResult : Type := {
  account : option Account;
  error : option FetchError;
}.

Definition fetchAccountInternal (publicKey : string) (tokenId : option string)
    (graphqlEndpoint : option string) (fetched : outcome Response) (now : Z)
    (st : State) : State * outcome FetchAccountResult :=
  let graphqlEndpoint := endpoint_or_default graphqlEndpoint st in
  match makeGraphqlRequest
          (accountQuery publicKey
             (default (TokenId_toBase58 TokenId_default) tokenId))
          (Some graphqlEndpoint) fetched st with
  | Throws t => (st, Throws t)
  | Returns (response, Some error) =>
      (st, Returns {| account := None; error := Some error |})
  | Returns (response, None) =>
      match lift (data ← get response "data"; get data "account") with
      | Throws t => (st, Throws t)
      | Returns JNull =>
          (st,
           Returns
             {| account := None;
                error :=
                  Some {| statusCode := 404;
                          statusText :=
                            "fetchAccount: Account with public key "
                            +:+ publicKey +:+ " does not exist." |} |})
      | Returns fetchedAccount =>
          match parseFetchedAccount fetchedAccount with
          | Throws t => (st, Throws t)
          | Returns account =>
              (* account successfully fetched - add to cache before
                 returning *)
              (addCachedAccountInternal account graphqlEndpoint now st,
               Returns {| account := Some account; error := None |})
          end
      end
  end.

Definition lastBlockQuery : string :=
  "{
  bestChain(maxLength: 1) {
    protocolState {
      blockchainState {
        snarkedLedgerHash
        stagedLedgerHash
        date
        utcDate
        stagedLedgerProofEmitted
      }
      previousStateHash
      consensusState {
        blockHeight
        slotSinceGenesis
        slot
        nextEpochData {
          ledger {hash totalCurrency}
          seed
          startCheckpoint
          lockCheckpoint
          epochLength
        }
        stakingEpochData {
          ledger {hash totalCurrency}
          seed
          startCheckpoint
          lockCheckpoint
          epochLength
        }
        epochCount
        minWindowDensity
        totalCurrency
        epoch
      }
    }
  }
}".

Definition parseEpochData (data : jsval) : outcome EpochData :=
  (* the parameter pattern
     { ledger: { hash, totalCurrency }, seed, startCheckpoint,
       lockCheckpoint, epochLength } *)
  ledger ← lift (get data "ledger");
  hash ← lift (get ledger "hash");
  totalCurrency ← lift (get ledger "totalCurrency");
  seed ← lift (get data "seed");
  startCheckpoint ← lift (get data "startCheckpoint");
  lockCheckpoint ← lift (get data "lockCheckpoint");
  epochLength ← lift (get data "epochLength");
  (* the returned object *)
  hash ← LedgerHash_fromBase58 hash;
  totalCurrency ← UInt64_from totalCurrency;
  seed ← EpochSeed_fromBase58 seed;
  startCheckpoint ← StateHash_fromBase58 startCheckpoint;
  lockCheckpoint ← StateHash_fromBase58 lockCheckpoint;
  epochLength ← UInt32_from epochLength;
  mret {| ledger_hash := hash; ledger_totalCurrency := totalCurrency;
          seed := seed; startCheckpoint := startCheckpoint;
          lockCheckpoint := lockCheckpoint; epochLength := epochLength |}.

Definition parseFetchedBlock (block : jsval) : outcome NetworkValue :=
  (* the parameter pattern *)
  protocolState ← lift (get block "protocolState");
  blockchainState ← lift (get protocolState "blockchainState");
  snarkedLedgerHash ← lift (get blockchainState "snarkedLedgerHash");
  utcDate ← lift (get blockchainState "utcDate");
  consensusState ← lift (get protocolState "consensusState");
  blockHeight ← lift (get consensusState "blockHeight");
  minWindowDensity ← lift (get consensusState "minWindowDensity");
  totalCurrency ← lift (get consensusState "totalCurrency");
  slot ← lift (get consensusState "slot");
  slotSinceGenesis ← lift (get consensusState "slotSinceGenesis");
  nextEpochData ← lift (get consensusState "nextEpochData");
  stakingEpochData ← lift (get consensusState "stakingEpochData");
  (* the returned object *)
  snarkedLedgerHash ← LedgerHash_fromBase58 snarkedLedgerHash;
  blockchainLength ← UInt32_from blockHeight;
  minWindowDensity ← UInt32_from minWindowDensity;
  totalCurrency ← UInt64_from totalCurrency;
  globalSlotSinceGenesis ← UInt32_from slotSinceGenesis;
  nextEpochData ← parseEpochData nextEpochData;
  stakingEpochData ← parseEpochData stakingEpochData;
  mret {| snarkedLedgerHash := snarkedLedgerHash;
          blockchainLength := blockchainLength;
          minWindowDensity := minWindowDensity;
          totalCurrency := totalCurrency;
          globalSlotSinceGenesis := globalSlotSinceGenesis;
          nextEpochData := nextEpochData;
          stakingEpochData := stakingEpochData |}.

(** [v?.k] and [v?.[k]]: [undefined] on [undefined] and [null].  On a
    string only the index 0 is ever asked for; it is the first character,
    taken here as the first byte. *)
Definition optional_get (v : jsval) (k : string) : jsval :=
  match v with
  | JUndefined | JNull => JUndefined
  | JObject props => default JUndefined (props !! k)
  | JString (String c _) =>
      if String.eqb k "0" then JString (String c "") else JUndefined
  | JString EmptyString | JBool _ | JNumber _ => JUndefined
  end.

Definition fetchLastBlock (graphqlEndpoint : option string)
    (fetched : outcome Response) (now : Z) (st : State)
    : State * outcome NetworkValue :=
  let graphqlEndpoint := endpoint_or_default graphqlEndpoint st in
  match makeGraphqlRequest lastBlockQuery (Some graphqlEndpoint) fetched st with
  | Throws t => (st, Throws t)
  | Returns (resp, Some error) => (st, Throws (Error (statusText error)))
  | Returns (resp, None) =>
      let lastBlock :=
        optional_get (optional_get (optional_get resp "data") "bestChain") "0" in
      match lastBlock with
      | JUndefined =>
          (st, Throws (Error "Failed to fetch latest network state."))
      | _ =>
          match parseFetchedBlock lastBlock with
          | Throws t => (st, Throws t)
          | Returns network =>
              ({| defaultGraphqlEndpoint := defaultGraphqlEndpoint st;
                  archiveGraphqlEndpoint := archiveGraphqlEndpoint st;
                  accountCache := accountCache st;
                  networkCache :=
                    <[graphqlEndpoint
                      := {| cached_network := network;
                            cached_network_graphqlEndpoint := graphqlEndpoint;
                            cached_network_timestamp := now |}]>
                      (networkCache st);
                  accountsToFetch := accountsToFetch st;
                  networksToFetch := networksToFetch st |},
               Returns network)
          end
      end
  end.

(** ** The blocks at the best tip, in [fetchEvents]

    The part of [fetchEvents] between the answer of the archive node and
    the final [map]: when more than one block is at the best tip
    ([distanceFromMaxBlockHeight === 0]), the blocks at the best tip are
    filtered out. *)

(** [event.blockInfo.distanceFromMaxBlockHeight === 0] *)
Definition atBestTip (event : jsval) : exn bool :=
  blockInfo ← get event "blockInfo";
  distance ← get blockInfo "distanceFromMaxBlockHeight";
  mret (match distance with
        | JNumber 0 => true
        | _ => false
        end).

(** [fetchedEvents.filter((event) =>
       event.blockInfo.distanceFromMaxBlockHeight !== 0)] *)
Fixpoint filterNotBestTip (fetchedEvents : list jsval) : exn (list jsval) :=
  match fetchedEvents with
  | [] => Ok []
  | event :: rest =>
      zero ← atBestTip event;
      kept ← filterNotBestTip rest;
      Ok (if zero : bool then kept else event :: kept)
  end.

(** The [for] loop, from the element [remaining] starts with. *)
Fixpoint bestTipLoop (remaining fetchedEvents : list jsval)
    (numberOfBestTipBlocks : nat) : exn (list jsval) :=
  match remaining with
  | [] => Ok fetchedEvents
  | event :: rest =>
      zero ← atBestTip event;
      let numberOfBestTipBlocks :=
        if zero : bool then S numberOfBestTipBlocks
        else numberOfBestTipBlocks in
      if (1 <? numberOfBestTipBlocks)%nat then filterNotBestTip fetchedEvents
      else bestTipLoop rest fetchedEvents numberOfBestTipBlocks
  end.

Definition dropBestTipBlocks (fetchedEvents : list jsval) : exn (list jsval) :=
  bestTipLoop fetchedEvents fetchedEvents 0.

End Functions.

(** The alphabet of base58 has no semicolon, the separator of the keys of
    the tables. *)
Definition no_semicolon (s : string) : bool :=
  forallb (fun c => negb (Ascii.eqb c ";")) (list_ascii_of_string s).

End Fetch.

(** A small instance of the collaborators of the fetch module: keys and
    token ids are their own base58 text, an account is a key with a token
    id, and the hashes and numbers of a block are kept as they come. *)

Module FetchToy.

Definition text_of_json (v : jsval) : Fetch.outcome string :=
  match v with
  | JString s => Fetch.Returns s
  | _ => Fetch.Throws (Fetch.Builtin MalformedKey)
  end.

Definition account_of_json (v : jsval) : Fetch.outcome (string * string) :=
  publicKey ← Fetch.lift (get v "publicKey");
  token ← Fetch.lift (get v "token");
  publicKey ← text_of_json publicKey;
  token ← text_of_json token;
  mret (publicKey, token).

#[global] Instance collaborators : Fetch.Collaborators := {|
  Fetch.PublicKey := string;
  Fetch.Field := string;
  Fetch.Account := string * string;
  Fetch.PartialAccount := string * string;
  Fetch.LedgerHash := string;
  Fetch.EpochSeed := string;
  Fetch.StateHash := string;
  Fetch.UInt32 := string;
  Fetch.UInt64 := string;
  Fetch.PublicKey_toBase58 := id;
  Fetch.TokenId_toBase58 := id;
  Fetch.TokenId_default := "1";
  Fetch.Account_publicKey := fst;
  Fetch.Account_tokenId := snd;
  Fetch.fillPartialAccount := Fetch.Returns;
  Fetch.parseFetchedAccount := account_of_json;
  Fetch.accountQuery := fun publicKey tokenId => publicKey +:+ " " +:+ tokenId;
  Fetch.LedgerHash_fromBase58 := text_of_json;
  Fetch.EpochSeed_fromBase58 := text_of_json;
  Fetch.StateHash_fromBase58 := text_of_json;
  Fetch.UInt32_from := text_of_json;
  Fetch.UInt64_from := text_of_json;
  Fetch.JSON_stringify := fun _ => Fetch.Returns "{}";
  Fetch.instanceof_AbortSignal := fun _ => false;
|}.

Definition event (distance : Z) (hash : string) : jsval :=
  JObject {[ "blockInfo" :=
               JObject {[ "distanceFromMaxBlockHeight" := JNumber distance;
                          "stateHash" := JString hash ]} ]}.

Definition epoch_json : jsval :=
  JObject {[ "ledger" := JObject {[ "hash" := JString "jx";
                                    "totalCurrency" := JString "10" ]};
             "seed" := JString "2v";
             "startCheckpoint" := JString "3N";
             "lockCheckpoint" := JString "3N";
             "epochLength" := JString "1" ]}.

Definition block_json : jsval :=
  JObject
    {[ "protocolState" :=
         JObject
           {[ "blockchainState" :=
                JObject {[ "snarkedLedgerHash" := JString "jw";
                           "utcDate" := JString "0" ]};
              "consensusState" :=
                JObject {[ "blockHeight" := JString "7";
                           "minWindowDensity" := JString "77";
                           "totalCurrency" := JString "1000";
                           "slot" := JString "3";
                           "slotSinceGenesis" := JString "30";
                           "nextEpochData" := epoch_json;
                           "stakingEpochData" := epoch_json ]} ]} ]}.

(** An answer of the node: the response is [ok] and its JSON is [data]. *)
Definition answer (data : jsval) : Fetch.outcome Fetch.Response :=
  Fetch.Returns {| Fetch.ok := true; Fetch.status := 200;
                   Fetch.response_statusText := "OK";
                   Fetch.json := Fetch.Returns data |}.

Definition account_answer : Fetch.outcome Fetch.Response :=
  answer (JObject {[ "data" :=
                       JObject {[ "account" :=
                                    JObject {[ "publicKey" := JString "B62q";
                                               "token" := JString "1" ]} ]} ]}).

Definition block_answer : Fetch.outcome Fetch.Response :=
  answer (JObject {[ "data" :=
                       JObject {[ "bestChain" :=
                                    JObject {[ "0" := block_json ]} ]} ]}).

(** The two states of a block that parses, and the block made of them. *)
Definition blockchain_state : gmap string jsval :=
  {[ "snarkedLedgerHash" := JString "jw" ]}.

Definition consensus_state : gmap string jsval :=
  {[ "blockHeight" := JString "7";
     "minWindowDensity" := JString "77";
     "totalCurrency" := JString "1000";
     "slotSinceGenesis" := JString "30";
     "nextEpochData" := epoch_json;
     "stakingEpochData" := epoch_json ]}.

Definition block_of (blockchainState consensusState : gmap string jsval)
    : jsval :=
  JObject (<["protocolState" :=
               JObject (<["blockchainState" := JObject blockchainState]>
                          (<["consensusState" := JObject consensusState]> ∅))]>
             ∅).

End FetchToy.

(** * Properties of the accumulator and of the codecs *)

Lemma append_assoc (a b c : HashInputLegacy.t) :
  HashInputLegacy.append a (HashInputLegacy.append b c)
  = HashInputLegacy.append (HashInputLegacy.append a b) c.
Proof.
  unfold HashInputLegacy.append; simpl. by rewrite !app_assoc.
Qed.

Lemma get_bits_append (a b : HashInputLegacy.t) :
  HashInputLegacy.get_bits (HashInputLegacy.append a b)
  = HashInputLegacy.get_bits a ++ HashInputLegacy.get_bits b.
Proof. reflexivity. Qed.

Lemma get_fields_append (a b : HashInputLegacy.t) :
  HashInputLegacy.get_fields (HashInputLegacy.append a b)
  = HashInputLegacy.get_fields a ++ HashInputLegacy.get_fields b.
Proof. reflexivity. Qed.

Lemma reduce_append_nested (a b c d e f : HashInputLegacy.t) :
  reduce_append [a; b; c; d; e; f]
  = HashInputLegacy.append a
      (HashInputLegacy.append b
         (HashInputLegacy.append c
            (HashInputLegacy.append d (HashInputLegacy.append e f)))).
Proof. simpl. by rewrite !append_assoc. Qed.

Lemma length_uint_toBits (width : nat) (x : Z) :
  length (uint_toBits width x) = width.
Proof. unfold uint_toBits. by rewrite length_map, length_seq. Qed.

Lemma length_legacyTokenId : length legacyTokenId = 64%nat.
Proof. reflexivity. Qed.

Lemma tag_codes_Some (t : string) (code : Z) :
  tag_codes !! t = Some code ->
  (t = "Payment" /\ code = 0) \/ (t = "StakeDelegation" /\ code = 1).
Proof.
  unfold tag_codes. intros H.
  apply lookup_insert_Some in H as [[<- <-] | [_ H]]; [by left |].
  apply lookup_singleton_Some in H as [<- <-]. by right.
Qed.

Lemma tag_codes_None (t : string) :
  t <> "Payment" -> t <> "StakeDelegation" -> tag_codes !! t = None.
Proof.
  intros H1 H2. unfold tag_codes.
  rewrite lookup_insert_ne by congruence.
  by rewrite lookup_singleton_ne by congruence.
Qed.

Lemma tagToInput_code (t : string) (code : Z) :
  tag_codes !! t = Some code ->
  tagToInput t
  = HashInputLegacy.bits [Z.testbit code 2; Z.testbit code 1; Z.testbit code 0].
Proof.
  intros H. unfold tagToInput. rewrite H.
  by destruct (tag_codes_Some _ _ H) as [[_ ->] | [_ ->]].
Qed.

Lemma tagToInput_unknown (t : string) :
  t <> "Payment" -> t <> "StakeDelegation" ->
  tagToInput t = HashInputLegacy.bits [false; false; false].
Proof.
  intros H1 H2. unfold tagToInput. by rewrite tag_codes_None.
Qed.

Section Encoding.

Context `{P : Primitives}.

(** The bits of the two halves of a command, chunk by chunk. *)
Lemma get_bits_body (b : Body) :
  HashInputLegacy.get_bits (bodyToInputLegacy b)
  = HashInputLegacy.get_bits (tagToInput (tag b))
    ++ HashInputLegacy.get_bits (PublicKey_toInputLegacy (source b))
    ++ HashInputLegacy.get_bits (PublicKey_toInputLegacy (receiver b))
    ++ legacyTokenId ++ UInt64.toBits (amount b) ++ [false].
Proof.
  unfold bodyToInputLegacy. rewrite reduce_append_nested.
  by rewrite !get_bits_append.
Qed.

Lemma get_fields_body (b : Body) :
  HashInputLegacy.get_fields (bodyToInputLegacy b)
  = HashInputLegacy.get_fields (PublicKey_toInputLegacy (source b))
    ++ HashInputLegacy.get_fields (PublicKey_toInputLegacy (receiver b)).
Proof.
  unfold bodyToInputLegacy. rewrite reduce_append_nested.
  rewrite !get_fields_append. simpl. by rewrite !app_nil_r.
Qed.

Lemma get_bits_common (c : Common) :
  HashInputLegacy.get_bits (commonToInputLegacy c)
  = UInt64.toBits (fee c) ++ legacyTokenId
    ++ HashInputLegacy.get_bits (PublicKey_toInputLegacy (feePayer c))
    ++ UInt32.toBits (nonce c) ++ UInt32.toBits (validUntil c)
    ++ Memo_toBits (memo c).
Proof.
  unfold commonToInputLegacy. rewrite reduce_append_nested.
  by rewrite !get_bits_append.
Qed.

Lemma get_fields_common (c : Common) :
  HashInputLegacy.get_fields (commonToInputLegacy c)
  = HashInputLegacy.get_fields (PublicKey_toInputLegacy (feePayer c)).
Proof.
  unfold commonToInputLegacy. rewrite reduce_append_nested.
  rewrite !get_fields_append. simpl. by rewrite !app_nil_r.
Qed.

(** The first bit of the body encoding is bit 2 of the tag code, which no
    tag has set. *)
Lemma head_bits_body (b : Body) :
  head (HashInputLegacy.get_bits (bodyToInputLegacy b)) = Some false.
Proof.
  rewrite get_bits_body. unfold tagToInput.
  destruct (tag_codes !! tag b) as [code|] eqn:E; [|done].
  by destruct (tag_codes_Some _ _ E) as [[_ ->] | [_ ->]].
Qed.

(** Whatever the collaborators, a command with an odd fee is not encoded
    body first. *)
Lemma odd_fee_not_body_first (command : UserCommand) :
  Z.odd (fee (common command)) = true ->
  toInputLegacy command
  <> HashInputLegacy.append (bodyToInputLegacy (body command))
                            (commonToInputLegacy (common command)).
Proof.
  intros Hodd Heq. apply (f_equal HashInputLegacy.get_bits) in Heq.
  apply (f_equal head) in Heq. unfold toInputLegacy in Heq.
  rewrite !get_bits_append in Heq.
  pose proof (head_bits_body (body command)) as Hb.
  destruct (HashInputLegacy.get_bits (bodyToInputLegacy (body command)))
    as [|b0 bs]; [done |]. simpl in Hb. injection Hb as ->.
  rewrite get_bits_common in Heq. simpl in Heq.
  rewrite Hodd in Heq. discriminate.
Qed.

(** ** The order of the encoding *)

(** C1, as the code has it: the hash input of a command is the encoding
    of its common part followed by the encoding of its body.  Field by
    field, the bits are fee, token id, fee payer, nonce, valid-until and
    memo, then tag, source, receiver, token id, amount and the
    token-locked bit; the field elements are those of the fee payer, then
    of the source and of the receiver. *)
Theorem toInputLegacy_common_then_body (command : UserCommand) :
  toInputLegacy command
  = HashInputLegacy.append (commonToInputLegacy (common command))
                           (bodyToInputLegacy (body command))
  /\ HashInputLegacy.get_bits (toInputLegacy command)
     = (UInt64.toBits (fee (common command)) ++ legacyTokenId
        ++ HashInputLegacy.get_bits
             (PublicKey_toInputLegacy (feePayer (common command)))
        ++ UInt32.toBits (nonce (common command))
        ++ UInt32.toBits (validUntil (common command))
        ++ Memo_toBits (memo (common command)))
       ++ (HashInputLegacy.get_bits (tagToInput (tag (body command)))
           ++ HashInputLegacy.get_bits
                (PublicKey_toInputLegacy (source (body command)))
           ++ HashInputLegacy.get_bits
                (PublicKey_toInputLegacy (receiver (body command)))
           ++ legacyTokenId ++ UInt64.toBits (amount (body command))
           ++ [false])
  /\ HashInputLegacy.get_fields (toInputLegacy command)
     = HashInputLegacy.get_fields
         (PublicKey_toInputLegacy (feePayer (common command)))
       ++ (HashInputLegacy.get_fields
             (PublicKey_toInputLegacy (source (body command)))
           ++ HashInputLegacy.get_fields
                (PublicKey_toInputLegacy (receiver (body command)))).
Proof.
  split; [reflexivity |]. unfold toInputLegacy.
  rewrite get_bits_append, get_fields_append.
  by rewrite get_bits_common, get_bits_body, get_fields_common,
    get_fields_body.
Qed.

(** C5: the body encoding is, in this order, the tag on three bits (bits
    2, 1 and 0 of its code), the source key, the receiver key, the legacy
    token id, the amount on 64 bits and one [false] bit. *)
Theorem bodyToInputLegacy_chunks (b : Body) (code : Z) :
  tag_codes !! tag b = Some code ->
  bodyToInputLegacy b
  = HashInputLegacy.append
      (HashInputLegacy.bits
         [Z.testbit code 2; Z.testbit code 1; Z.testbit code 0])
      (HashInputLegacy.append (PublicKey_toInputLegacy (source b))
         (HashInputLegacy.append (PublicKey_toInputLegacy (receiver b))
            (HashInputLegacy.append (HashInputLegacy.bits legacyTokenId)
               (HashInputLegacy.append
                  (HashInputLegacy.bits (UInt64.toBits (amount b)))
                  (HashInputLegacy.bits [false])))))
  /\ HashInputLegacy.get_bits (bodyToInputLegacy b)
     = [Z.testbit code 2; Z.testbit code 1; Z.testbit code 0]
       ++ HashInputLegacy.get_bits (PublicKey_toInputLegacy (source b))
       ++ HashInputLegacy.get_bits (PublicKey_toInputLegacy (receiver b))
       ++ legacyTokenId ++ UInt64.toBits (amount b) ++ [false]
  /\ HashInputLegacy.get_fields (bodyToInputLegacy b)
     = HashInputLegacy.get_fields (PublicKey_toInputLegacy (source b))
       ++ HashInputLegacy.get_fields (PublicKey_toInputLegacy (receiver b))
  /\ length legacyTokenId = 64%nat
  /\ length (UInt64.toBits (amount b)) = 64%nat
  /\ tag_codes !! "Payment" = Some 0
  /\ tag_codes !! "StakeDelegation" = Some 1
  /\ tagToInput "Payment" = HashInputLegacy.bits [false; false; false]
  /\ tagToInput "StakeDelegation"
     = HashInputLegacy.bits [false; false; true].
Proof.
  intros Hcode. pose proof (tagToInput_code _ _ Hcode) as Htag.
  split; [unfold bodyToInputLegacy; by rewrite reduce_append_nested, Htag |].
  split; [by rewrite get_bits_body, Htag |].
  split; [apply get_fields_body |].
  split; [reflexivity |].
  split; [apply length_uint_toBits |].
  repeat split; reflexivity.
Qed.

(** C6: the common encoding is, in this order, the fee on 64 bits, the
    legacy token id (a 1-bit followed by 63 zero bits, the constant of
    the body encoding), the fee payer key, the nonce on 32 bits,
    valid-until on 32 bits and the bits of the memo. *)
Theorem commonToInputLegacy_chunks (c : Common) :
  commonToInputLegacy c
  = HashInputLegacy.append (HashInputLegacy.bits (UInt64.toBits (fee c)))
      (HashInputLegacy.append (HashInputLegacy.bits legacyTokenId)
         (HashInputLegacy.append (PublicKey_toInputLegacy (feePayer c))
            (HashInputLegacy.append
               (HashInputLegacy.bits (UInt32.toBits (nonce c)))
               (HashInputLegacy.append
                  (HashInputLegacy.bits (UInt32.toBits (validUntil c)))
                  (HashInputLegacy.bits (Memo_toBits (memo c)))))))
  /\ HashInputLegacy.get_bits (commonToInputLegacy c)
     = UInt64.toBits (fee c) ++ legacyTokenId
       ++ HashInputLegacy.get_bits (PublicKey_toInputLegacy (feePayer c))
       ++ UInt32.toBits (nonce c) ++ UInt32.toBits (validUntil c)
       ++ Memo_toBits (memo c)
  /\ HashInputLegacy.get_fields (commonToInputLegacy c)
     = HashInputLegacy.get_fields (PublicKey_toInputLegacy (feePayer c))
  /\ legacyTokenId = true :: repeat false 63
  /\ length (UInt64.toBits (fee c)) = 64%nat
  /\ length legacyTokenId = 64%nat
  /\ length (UInt32.toBits (nonce c)) = 32%nat
  /\ length (UInt32.toBits (validUntil c)) = 32%nat
  /\ (forall b : Body,
        exists before after,
          HashInputLegacy.get_bits (bodyToInputLegacy b)
          = before ++ legacyTokenId ++ after
          /\ length after = 65%nat).
Proof.
  split; [unfold commonToInputLegacy; by rewrite reduce_append_nested |].
  split; [apply get_bits_common |].
  split; [apply get_fields_common |].
  repeat (split; [reflexivity || apply length_uint_toBits |]).
  - intros b.
    exists (HashInputLegacy.get_bits (tagToInput (tag b))
            ++ HashInputLegacy.get_bits (PublicKey_toInputLegacy (source b))
            ++ HashInputLegacy.get_bits
                 (PublicKey_toInputLegacy (receiver b))),
           (UInt64.toBits (amount b) ++ [false]).
    split.
    + rewrite get_bits_body. by rewrite <- !app_assoc.
    + rewrite length_app. unfold UInt64.toBits.
      by rewrite length_uint_toBits.
Qed.

End Encoding.

(** * The string encoding *)

Lemma rev_bytesToBits_one (byte : Z) :
  rev (bytesToBits [byte])
  = [Z.testbit byte 7; Z.testbit byte 6; Z.testbit byte 5; Z.testbit byte 4;
     Z.testbit byte 3; Z.testbit byte 2; Z.testbit byte 1; Z.testbit byte 0].
Proof. reflexivity. Qed.

(** C7: the bits of a string are those of its UTF-8 bytes, byte after byte
    in the order of the text, each byte from bit 7 down to bit 0. *)
Theorem stringToInput_bits (s : string) :
  stringToInput s
  = HashInputLegacy.bits
      (flat_map
         (fun byte =>
            [Z.testbit byte 7; Z.testbit byte 6; Z.testbit byte 5;
             Z.testbit byte 4; Z.testbit byte 3; Z.testbit byte 2;
             Z.testbit byte 1; Z.testbit byte 0])
         (stringToBytes s))
  /\ length (HashInputLegacy.get_bits (stringToInput s))
     = (8 * length (stringToBytes s))%nat
  /\ HashInputLegacy.get_fields (stringToInput s) = [].
Proof.
  unfold stringToInput. split; [| split; [| reflexivity]].
  - f_equal. rewrite flat_map_concat_map. f_equal.
  - cbn [HashInputLegacy.get_bits HashInputLegacy.bits].
    induction (stringToBytes s) as [|byte bytes IH]; [done |].
    rewrite map_cons, concat_cons, length_app, IH, rev_bytesToBits_one.
    cbn [length]. lia.
Qed.

Example stringToInput_A :
  stringToInput "A"
  = HashInputLegacy.bits [false; true; false; false; false; false; false; true].
Proof. reflexivity. Qed.

(** * Payments against delegations *)

Section Tags.

Context `{P : Primitives}.





End Tags.

(** * Reasoning about calls that may throw *)

Lemma bind_Ok_inv {A B : Type} (k : A -> exn B) (m : exn A) (b : B) :
  m ≫= k = Ok b -> exists a, m = Ok a /\ k a = Ok b.
Proof. destruct m as [a|e]; [by exists a | discriminate]. Qed.

Lemma bind_Throw_inv {A B : Type} (k : A -> exn B) (m : exn A) (e : error) :
  m ≫= k = Throw e -> m = Throw e \/ exists a, m = Ok a /\ k a = Throw e.
Proof.
  destruct m as [a|e']; intros H; [right; by exists a |].
  left. by injection H as ->.
Qed.

Lemma try_catch_returns {A : Type} (body : exn A) (handler : A) :
  exists a, try_catch body handler = Ok a.
Proof. destruct body as [a|e]; [by exists a | by exists handler]. Qed.

Lemma try_catch_true (body : exn bool) :
  try_catch body false = Ok true <-> body = Ok true.
Proof.
  destruct body as [[|]|e]; simpl; split; intros H;
    (reflexivity || discriminate H).
Qed.

Lemma try_catch_bool (body : exn bool) :
  try_catch body false = Ok true \/ try_catch body false = Ok false.
Proof. destruct body as [[|]|e]; auto. Qed.

(** Peels the successful stages off a hypothesis [m ≫= k = Ok b]. *)
Ltac ok_stages H :=
  repeat (let a := fresh "a" in
          let E := fresh "E" in
          apply bind_Ok_inv in H as (a & E & H); cbv beta in H).

(** * The translation from JSON *)

Section Translation.

Context `{P : Primitives}.

Lemma paymentFromJson_tag (payment : jsval) (command : UserCommand) :
  paymentFromJson payment = Ok command -> tag (body command) = "Payment".
Proof.
  unfold paymentFromJson. intros H. ok_stages H. by injection H as <-.
Qed.

Lemma delegationFromJson_tag_amount (delegation : jsval) (command : UserCommand) :
  delegationFromJson delegation = Ok command ->
  tag (body command) = "StakeDelegation"
  /\ amount (body command) = UInt64.zero.
Proof.
  unfold delegationFromJson. intros H. ok_stages H. by injection H as <-.
Qed.

(** Only the properties [delegator] and [newDelegate] of the body are
    read. *)
Lemma delegationFromJson_body (m b : gmap string jsval) :
  delegationFromJson (JObject (<["body" := JObject b]> m))
  = (common ← commonFromJson (default JUndefined (m !! "common"));
     source ← PublicKey_fromJSON (default JUndefined (b !! "delegator"));
     receiver ← PublicKey_fromJSON (default JUndefined (b !! "newDelegate"));
     mret {| common := common;
             body := {| tag := "StakeDelegation"; source := source;
                        receiver := receiver; amount := UInt64.zero |} |}).
Proof.
  unfold delegationFromJson, get.
  rewrite lookup_insert_eq, lookup_insert_ne by done. reflexivity.
Qed.

Lemma lookup_but_amount (b1 b2 : gmap string jsval) (k : string) :
  delete "amount" b1 = delete "amount" b2 ->
  k <> "amount" ->
  b1 !! k = b2 !! k.
Proof.
  intros Hdel Hk.
  rewrite <- (lookup_delete_ne b1 "amount" k), <- (lookup_delete_ne b2 "amount" k)
    by congruence.
  by rewrite Hdel.
Qed.

(** C4: a delegation always carries the amount zero, whatever its JSON
    holds; two delegations that differ at most in an [amount] property of
    the body give the same command, the same encoding, the same
    signature and the same verdict. *)
Theorem delegation_amount_invariant (m b1 b2 : gmap string jsval) :
  delete "amount" b1 = delete "amount" b2 ->
  (forall delegation command,
      delegationFromJson delegation = Ok command ->
      amount (body command) = 0
      /\ UInt64.toBits (amount (body command)) = repeat false 64)
  /\ delegationFromJson (JObject (<["body" := JObject b1]> m))
     = delegationFromJson (JObject (<["body" := JObject b2]> m))
  /\ toInputLegacy <$> delegationFromJson (JObject (<["body" := JObject b1]> m))
     = toInputLegacy <$> delegationFromJson (JObject (<["body" := JObject b2]> m))
  /\ (forall privateKeyBase58 networkId,
        signStakeDelegation (JObject (<["body" := JObject b1]> m))
                            privateKeyBase58 networkId
        = signStakeDelegation (JObject (<["body" := JObject b2]> m))
                              privateKeyBase58 networkId)
  /\ (forall signatureJson publicKeyBase58 networkId,
        verifyStakeDelegation (JObject (<["body" := JObject b1]> m))
                              signatureJson publicKeyBase58 networkId
        = verifyStakeDelegation (JObject (<["body" := JObject b2]> m))
                                signatureJson publicKeyBase58 networkId).
Proof.
  intros Hdel.
  assert (Heq : delegationFromJson (JObject (<["body" := JObject b1]> m))
                = delegationFromJson (JObject (<["body" := JObject b2]> m))).
  { rewrite !delegationFromJson_body.
    by rewrite (lookup_but_amount b1 b2 "delegator" Hdel),
      (lookup_but_amount b1 b2 "newDelegate" Hdel). }
  split; [| split; [exact Heq | split; [by rewrite Heq | split]]].
  - intros delegation command H.
    destruct (delegationFromJson_tag_amount _ _ H) as [_ ->]. by split.
  - intros sk net. unfold signStakeDelegation. by rewrite Heq.
  - intros sj pk net. unfold verifyStakeDelegation. by rewrite Heq.
Qed.

(** C8, as the code has it: the two translations only produce the tags
    [Payment] and [StakeDelegation], which are encoded as 000 and 001;
    [tagToInput] itself checks nothing, and a tag outside the type would
    be encoded as 000, like a payment. *)
Theorem tag_reachable_and_encoded :
  (forall payment command,
      paymentFromJson payment = Ok command ->
      tag (body command) = "Payment")
  /\ (forall delegation command,
        delegationFromJson delegation = Ok command ->
        tag (body command) = "StakeDelegation")
  /\ tagToInput "Payment" = HashInputLegacy.bits [false; false; false]
  /\ tagToInput "StakeDelegation" = HashInputLegacy.bits [false; false; true]
  /\ (forall t : Tag,
        is_Some (tag_codes !! t) <-> t = "Payment" \/ t = "StakeDelegation")
  /\ (forall t : Tag,
        t <> "Payment" -> t <> "StakeDelegation" ->
        tagToInput t = HashInputLegacy.bits [false; false; false]
        /\ tagToInput_checked t = Throw TypeError).
Proof.
  split; [exact paymentFromJson_tag |].
  split; [intros d c H; by destruct (delegationFromJson_tag_amount d c H) |].
  split; [reflexivity |]. split; [reflexivity |]. split.
  - intros t. split.
    + intros [code H]. destruct (tag_codes_Some _ _ H) as [[-> _] | [-> _]]; auto.
    + intros [-> | ->]; by eexists.
  - intros t H1 H2. split; [by apply tagToInput_unknown |].
    unfold tagToInput_checked. by rewrite tag_codes_None.
Qed.

End Translation.

(** * Signing and verifying *)

Section Orchestrator.

Context `{P : Primitives}.

Lemma signUserCommand_Ok (command : UserCommand) (privateKeyBase58 : string)
    (networkId : NetworkId) (sk : PrivateKey) :
  PrivateKey_fromBase58 privateKeyBase58 = Ok sk ->
  signUserCommand command privateKeyBase58 networkId
  = Ok (Signature_toJSON (signLegacy (toInputLegacy command) sk networkId)).
Proof. intros H. unfold signUserCommand. by rewrite H. Qed.

Lemma signUserCommand_Throw (command : UserCommand)
    (privateKeyBase58 : string) (networkId : NetworkId) (e : error) :
  PrivateKey_fromBase58 privateKeyBase58 = Throw e ->
  signUserCommand command privateKeyBase58 networkId = Throw e.
Proof. intros H. unfold signUserCommand. by rewrite H. Qed.

(** A verification returns [true] exactly when every stage succeeds and
    the primitive accepts. *)
Lemma verifyUserCommand_true (command : UserCommand) (signatureJson : jsval)
    (publicKeyBase58 : string) (networkId : NetworkId) :
  verifyUserCommand command signatureJson publicKeyBase58 networkId = Ok true
  <-> exists sig pk,
        Signature_fromJSON signatureJson = Ok sig
        /\ PublicKey_fromBase58 publicKeyBase58 = Ok pk
        /\ verifyLegacy sig (toInputLegacy command) pk networkId = Ok true.
Proof.
  unfold verifyUserCommand. split.
  - intros H. ok_stages H. eauto.
  - intros (sig & pk & -> & -> & H). exact H.
Qed.

(** C9: with a private key string that does not decode, signing throws:
    the failure of the decoder reaches the caller of [signPayment],
    [signStakeDelegation] and [signString]; nothing is caught and no
    value is returned in its place. *)
Theorem sign_propagates_bad_private_key
    (privateKeyBase58 : string) (networkId : NetworkId) (e : error) :
  PrivateKey_fromBase58 privateKeyBase58 = Throw e ->
  (forall command,
      signUserCommand command privateKeyBase58 networkId = Throw e)
  /\ (forall string, signString string privateKeyBase58 networkId = Throw e)
  /\ (forall payment, throws (signPayment payment privateKeyBase58 networkId))
  /\ (forall delegation,
        throws (signStakeDelegation delegation privateKeyBase58 networkId))
  /\ (forall payment command,
        paymentFromJson payment = Ok command ->
        signPayment payment privateKeyBase58 networkId = Throw e)
  /\ (forall delegation command,
        delegationFromJson delegation = Ok command ->
        signStakeDelegation delegation privateKeyBase58 networkId = Throw e).
Proof.
  intros Hkey.
  split; [intros c; by apply signUserCommand_Throw |].
  split; [intros s; unfold signString; by rewrite Hkey |].
  split; [| split; [| split]].
  - intros p. unfold signPayment.
    destruct (paymentFromJson p) as [c|e']; [| by exists e'].
    exists e. by apply signUserCommand_Throw.
  - intros d. unfold signStakeDelegation.
    destruct (delegationFromJson d) as [c|e']; [| by exists e'].
    exists e. by apply signUserCommand_Throw.
  - intros p c Hp. unfold signPayment. rewrite Hp.
    by apply signUserCommand_Throw.
  - intros d c Hd. unfold signStakeDelegation. rewrite Hd.
    by apply signUserCommand_Throw.
Qed.

(** C3: the three verification functions return a boolean on every
    input and never throw: the result is [true] exactly when the command,
    the signature and the public key all decode and the primitive
    accepts, and [false] in every other case, a failure of any stage
    included. *)
Theorem verify_never_throws (payment delegation signatureJson : jsval)
    (string publicKeyBase58 : String.string) (networkId : NetworkId) :
  (verifyPayment payment signatureJson publicKeyBase58 networkId = Ok true
   \/ verifyPayment payment signatureJson publicKeyBase58 networkId = Ok false)
  /\ (verifyStakeDelegation delegation signatureJson publicKeyBase58 networkId
      = Ok true
      \/ verifyStakeDelegation delegation signatureJson publicKeyBase58 networkId
         = Ok false)
  /\ (verifyStringSignature string signatureJson publicKeyBase58 networkId
      = Ok true
      \/ verifyStringSignature string signatureJson publicKeyBase58 networkId
         = Ok false)
  /\ (verifyPayment payment signatureJson publicKeyBase58 networkId = Ok true
      <-> exists command sig pk,
            paymentFromJson payment = Ok command
            /\ Signature_fromJSON signatureJson = Ok sig
            /\ PublicKey_fromBase58 publicKeyBase58 = Ok pk
            /\ verifyLegacy sig (toInputLegacy command) pk networkId = Ok true)
  /\ (verifyStakeDelegation delegation signatureJson publicKeyBase58 networkId
      = Ok true
      <-> exists command sig pk,
            delegationFromJson delegation = Ok command
            /\ Signature_fromJSON signatureJson = Ok sig
            /\ PublicKey_fromBase58 publicKeyBase58 = Ok pk
            /\ verifyLegacy sig (toInputLegacy command) pk networkId = Ok true)
  /\ (verifyStringSignature string signatureJson publicKeyBase58 networkId
      = Ok true
      <-> exists sig pk,
            Signature_fromJSON signatureJson = Ok sig
            /\ PublicKey_fromBase58 publicKeyBase58 = Ok pk
            /\ verifyLegacy sig (stringToInput string) pk networkId = Ok true)
  /\ (throws (paymentFromJson payment) ->
      verifyPayment payment signatureJson publicKeyBase58 networkId = Ok false)
  /\ (throws (delegationFromJson delegation) ->
      verifyStakeDelegation delegation signatureJson publicKeyBase58 networkId
      = Ok false)
  /\ (throws (Signature_fromJSON signatureJson)
      \/ throws (PublicKey_fromBase58 publicKeyBase58) ->
      verifyPayment payment signatureJson publicKeyBase58 networkId = Ok false
      /\ verifyStakeDelegation delegation signatureJson publicKeyBase58
                               networkId = Ok false
      /\ verifyStringSignature string signatureJson publicKeyBase58 networkId
         = Ok false).
Proof.
  assert (Hp : verifyPayment payment signatureJson publicKeyBase58 networkId
               = Ok true
               <-> exists command sig pk,
                 paymentFromJson payment = Ok command
                 /\ Signature_fromJSON signatureJson = Ok sig
                 /\ PublicKey_fromBase58 publicKeyBase58 = Ok pk
                 /\ verifyLegacy sig (toInputLegacy command) pk networkId
                    = Ok true).
  { unfold verifyPayment. rewrite try_catch_true. split.
    - intros H. apply bind_Ok_inv in H as (c & Hc & H).
      apply verifyUserCommand_true in H as (sig & pk & H). eauto.
    - intros (c & sig & pk & -> & H). apply verifyUserCommand_true. eauto. }
  assert (Hd : verifyStakeDelegation delegation signatureJson publicKeyBase58
                                     networkId = Ok true
               <-> exists command sig pk,
                 delegationFromJson delegation = Ok command
                 /\ Signature_fromJSON signatureJson = Ok sig
                 /\ PublicKey_fromBase58 publicKeyBase58 = Ok pk
                 /\ verifyLegacy sig (toInputLegacy command) pk networkId
                    = Ok true).
  { unfold verifyStakeDelegation. rewrite try_catch_true. split.
    - intros H. apply bind_Ok_inv in H as (c & Hc & H).
      apply verifyUserCommand_true in H as (sig & pk & H). eauto.
    - intros (c & sig & pk & -> & H). apply verifyUserCommand_true. eauto. }
  assert (Hs : verifyStringSignature string signatureJson publicKeyBase58
                                     networkId = Ok true
               <-> exists sig pk,
                 Signature_fromJSON signatureJson = Ok sig
                 /\ PublicKey_fromBase58 publicKeyBase58 = Ok pk
                 /\ verifyLegacy sig (stringToInput string) pk networkId
                    = Ok true).
  { unfold verifyStringSignature. rewrite try_catch_true. split.
    - intros H. ok_stages H. eauto.
    - intros (sig & pk & -> & -> & H). exact H. }
  pose proof (try_catch_bool
    (command ← paymentFromJson payment;
     verifyUserCommand command signatureJson publicKeyBase58 networkId))
    as Bp.
  pose proof (try_catch_bool
    (command ← delegationFromJson delegation;
     verifyUserCommand command signatureJson publicKeyBase58 networkId))
    as Bd.
  assert (Bs : verifyStringSignature string signatureJson publicKeyBase58
                 networkId = Ok true
               \/ verifyStringSignature string signatureJson publicKeyBase58
                    networkId = Ok false) by apply try_catch_bool.
  fold (verifyPayment payment signatureJson publicKeyBase58 networkId) in Bp.
  fold (verifyStakeDelegation delegation signatureJson publicKeyBase58
          networkId) in Bd.
  repeat (split; [assumption |]).
  split; [| split].
  - intros [e He]. destruct Bp as [Bp | Bp]; [| exact Bp].
    apply Hp in Bp as (c & _ & _ & Hc & _). congruence.
  - intros [e He]. destruct Bd as [Bd | Bd]; [| exact Bd].
    apply Hd in Bd as (c & _ & _ & Hc & _). congruence.
  - intros Hbad. repeat split.
    + destruct Bp as [Bp | Bp]; [| exact Bp].
      apply Hp in Bp as (c & sig & pk & _ & Hsig & Hpk & _).
      destruct Hbad as [[e He] | [e He]]; congruence.
    + destruct Bd as [Bd | Bd]; [| exact Bd].
      apply Hd in Bd as (c & sig & pk & _ & Hsig & Hpk & _).
      destruct Hbad as [[e He] | [e He]]; congruence.
    + destruct Bs as [Bs | Bs]; [| exact Bs].
      apply Hs in Bs as (sig & pk & Hsig & Hpk & _).
      destruct Hbad as [[e He] | [e He]]; congruence.
Qed.

(** C2: a signature made with a private key verifies against the public
    key derived from it, on the same command (or string) and network,
    for payments, stake delegations and strings alike. *)
Theorem sign_then_verify (Sound : PrimitivesSound P)
    (privateKeyBase58 publicKeyBase58 : string) (networkId : NetworkId)
    (sk : PrivateKey) :
  PrivateKey_fromBase58 privateKeyBase58 = Ok sk ->
  PublicKey_fromBase58 publicKeyBase58 = Ok (PrivateKey_toPublicKey sk) ->
  (forall payment command,
      paymentFromJson payment = Ok command ->
      exists signatureJson,
        signPayment payment privateKeyBase58 networkId = Ok signatureJson
        /\ verifyPayment payment signatureJson publicKeyBase58 networkId
           = Ok true)
  /\ (forall delegation command,
        delegationFromJson delegation = Ok command ->
        exists signatureJson,
          signStakeDelegation delegation privateKeyBase58 networkId
          = Ok signatureJson
          /\ verifyStakeDelegation delegation signatureJson publicKeyBase58
                                   networkId = Ok true)
  /\ (forall string,
        exists signatureJson,
          signString string privateKeyBase58 networkId = Ok signatureJson
          /\ verifyStringSignature string signatureJson publicKeyBase58
                                   networkId = Ok true).
Proof.
  intros Hsk Hpk. split; [| split].
  - intros p c Hp. eexists. split.
    + unfold signPayment. rewrite Hp. by apply signUserCommand_Ok.
    + unfold verifyPayment. rewrite Hp. apply try_catch_true.
      apply verifyUserCommand_true. eexists _, _.
      split; [apply Signature_fromJSON_toJSON |].
      split; [exact Hpk | apply verifyLegacy_signLegacy].
  - intros d c Hd. eexists. split.
    + unfold signStakeDelegation. rewrite Hd. by apply signUserCommand_Ok.
    + unfold verifyStakeDelegation. rewrite Hd. apply try_catch_true.
      apply verifyUserCommand_true. eexists _, _.
      split; [apply Signature_fromJSON_toJSON |].
      split; [exact Hpk | apply verifyLegacy_signLegacy].
  - intros s. eexists. split.
    + unfold signString. by rewrite Hsk.
    + unfold verifyStringSignature. apply try_catch_true.
      rewrite Signature_fromJSON_toJSON, Hpk.
      apply verifyLegacy_signLegacy.
Qed.

End Orchestrator.

(** * The small instance at work *)

Lemma decimal_print (n : N) : Toy.decimal (Toy.print n) = Some n.
Proof.
  unfold Toy.decimal, Toy.print.
  by rewrite NilEmpty.usu; simpl; rewrite DecimalN.Unsigned.of_to.
Qed.

Lemma toy_sound : PrimitivesSound Toy.primitives.
Proof.
  split.
  - intros [r z]. simpl. unfold Toy.signature_of_json, Toy.signature_to_json, get.
    rewrite lookup_insert_eq, lookup_insert_ne, lookup_singleton_eq by done.
    simpl. by rewrite !decimal_print.
  - intros input sk net. simpl. unfold Toy.verify, Toy.sign. simpl.
    assert (Hodd : N.even (Toy.public_of_private sk) = false).
    { unfold Toy.public_of_private.
      by rewrite N.add_comm, N.even_add_mul_2. }
    rewrite Hodd, N.add_comm, N.add_sub, !N.eqb_refl. reflexivity.
Qed.

(** The scenarios of the design, on the small instance. *)
Example payment_scenario :
  (signatureJson ← signPayment Toy.payment_json "5" Toy.testnet;
   verifyPayment Toy.payment_json signatureJson "11" Toy.testnet) = Ok true
  /\ (signatureJson ← signPayment Toy.payment_json "5" Toy.testnet;
      verifyPayment Toy.payment_json signatureJson "11" Toy.mainnet) = Ok false.
Proof. split; vm_compute; reflexivity. Qed.

Example string_scenario :
  (signatureJson ← signString "hello world" "5" Toy.mainnet;
   verifyStringSignature "hello world!" signatureJson "11" Toy.mainnet)
  = Ok false.
Proof. vm_compute. reflexivity. Qed.

Example delegation_json_amount_gives_zero :
  amount ∘ body <$> delegationFromJson Toy.delegation_json_amount = Ok 0.
Proof. vm_compute. reflexivity. Qed.

(** C1, as the specification has it (body first, then common), fails on
    the payment [Toy.a_payment]: the hash input starts with the bits of
    the fee, all set, where the body-first order starts with the tag. *)
Lemma toInputLegacy_not_body_first :
  toInputLegacy Toy.a_payment
  <> HashInputLegacy.append (bodyToInputLegacy (body Toy.a_payment))
                            (commonToInputLegacy (common Toy.a_payment))
  /\ head (HashInputLegacy.get_bits (toInputLegacy Toy.a_payment)) = Some true
  /\ head (HashInputLegacy.get_bits
             (HashInputLegacy.append
                (bodyToInputLegacy (body Toy.a_payment))
                (commonToInputLegacy (common Toy.a_payment)))) = Some false.
Proof.
  split; [| split; reflexivity].
  intros H. apply (f_equal (fun h => head (HashInputLegacy.get_bits h))) in H.
  vm_compute in H. discriminate H.
Qed.

(** C8, as the specification has it (any other tag is a failure), fails on
    the tag [Other]: [tagToInput] returns the encoding of a payment. *)
Lemma tagToInput_unknown_tag_not_rejected :
  Ok (tagToInput "Other") <> tagToInput_checked "Other"
  /\ tagToInput_checked "Other" = Throw TypeError
  /\ tagToInput "Other" = HashInputLegacy.bits [false; false; false]
  /\ tagToInput "Other" = tagToInput "Payment".
Proof.
  split; [| by repeat split]. intros H. vm_compute in H. discriminate H.
Qed.

Lemma sign_then_verify_witness :
  (exists signatureJson,
      signPayment Toy.payment_json "5" Toy.testnet = Ok signatureJson
      /\ verifyPayment Toy.payment_json signatureJson "11" Toy.testnet = Ok true)
  /\ (exists signatureJson,
        signStakeDelegation Toy.delegation_json "5" Toy.testnet
        = Ok signatureJson
        /\ verifyStakeDelegation Toy.delegation_json signatureJson "11"
                                 Toy.testnet = Ok true)
  /\ (exists signatureJson,
        signString "hello world" "5" Toy.testnet = Ok signatureJson
        /\ verifyStringSignature "hello world" signatureJson "11" Toy.testnet
           = Ok true).
Proof.
  destruct (sign_then_verify (P := Toy.primitives) toy_sound
              "5" "11" Toy.testnet 5%N
              ltac:(reflexivity) ltac:(reflexivity)) as (Hp & Hd & Hs).
  split; [| split].
  - destruct (paymentFromJson Toy.payment_json) as [c|e] eqn:E;
      [| discriminate E].
    exact (Hp Toy.payment_json c E).
  - destruct (delegationFromJson Toy.delegation_json) as [c|e] eqn:E;
      [| discriminate E].
    exact (Hd Toy.delegation_json c E).
  - apply Hs.
Defined.

Lemma verify_never_throws_witness :
  verifyPayment JUndefined JNull "x" Toy.mainnet = Ok false
  /\ verifyStakeDelegation Toy.delegation_json (JString "no signature") "11"
                           Toy.mainnet = Ok false
  /\ verifyStringSignature "hello" (JObject ∅) "not a key" Toy.mainnet
     = Ok false.
Proof.
  destruct (verify_never_throws (P := Toy.primitives)
              JUndefined Toy.delegation_json JNull "hello" "x" Toy.mainnet)
    as (_ & _ & _ & _ & _ & _ & Hp & _).
  destruct (verify_never_throws (P := Toy.primitives)
              JUndefined Toy.delegation_json
              (JString "no signature") "hello" "11" Toy.mainnet)
    as (_ & _ & _ & _ & _ & _ & _ & _ & Hd).
  destruct (verify_never_throws (P := Toy.primitives)
              JUndefined JUndefined (JObject ∅)
              "hello" "not a key" Toy.mainnet)
    as (_ & _ & _ & _ & _ & _ & _ & _ & Hs).
  split; [| split].
  - apply Hp. exists TypeError. reflexivity.
  - apply Hd. left. exists MalformedSignature. reflexivity.
  - apply Hs. right. exists MalformedKey. reflexivity.
Defined.

Lemma delegation_amount_invariant_witness :
  delete "amount" Toy.delegation_body
  = delete "amount" (<["amount" := JString "42"]> Toy.delegation_body)
  /\ signStakeDelegation
       (JObject (<["body" := JObject Toy.delegation_body]>
                   {[ "common" := Toy.common_json ]}))
       "5" Toy.testnet
     = signStakeDelegation
         (JObject (<["body" := JObject (<["amount" := JString "42"]>
                                          Toy.delegation_body)]>
                     {[ "common" := Toy.common_json ]}))
         "5" Toy.testnet
  /\ amount ∘ body <$> delegationFromJson Toy.delegation_json_amount = Ok 0.
Proof.
  assert (Hdel : delete "amount" Toy.delegation_body
                 = delete "amount"
                     (<["amount" := JString "42"]> Toy.delegation_body))
    by (vm_compute; reflexivity).
  destruct (delegation_amount_invariant (P := Toy.primitives)
              {[ "common" := Toy.common_json ]} Toy.delegation_body
              (<["amount" := JString "42"]> Toy.delegation_body) Hdel)
    as (Hzero & _ & _ & Hsign & _).
  split; [exact Hdel | split; [apply Hsign |]].
  destruct (delegationFromJson Toy.delegation_json_amount) as [c|e] eqn:E;
    [| discriminate E].
  destruct (Hzero _ _ E) as [Hc _]. simpl. unfold compose. by rewrite Hc.
Defined.

Lemma bodyToInputLegacy_chunks_witness :
  tag_codes !! tag (body Toy.a_delegation) = Some 1
  /\ HashInputLegacy.get_bits (bodyToInputLegacy (body Toy.a_delegation))
     = [false; false; true] ++ [true] ++ [true] ++ legacyTokenId
       ++ repeat false 64 ++ [false]
  /\ HashInputLegacy.get_fields (bodyToInputLegacy (body Toy.a_delegation))
     = [5; 3].
Proof.
  destruct (bodyToInputLegacy_chunks (P := Toy.primitives)
              (body Toy.a_delegation) 1
              ltac:(reflexivity)) as (_ & Hbits & Hfields & _).
  split; [reflexivity | split; [exact Hbits | exact Hfields]].
Defined.

Lemma tag_reachable_and_encoded_witness :
  (exists command,
      paymentFromJson Toy.payment_json = Ok command
      /\ tag (body command) = "Payment")
  /\ (exists command,
        delegationFromJson Toy.delegation_json = Ok command
        /\ tag (body command) = "StakeDelegation")
  /\ tagToInput "Other" = HashInputLegacy.bits [false; false; false]
  /\ tagToInput_checked "Other" = Throw TypeError.
Proof.
  destruct (@tag_reachable_and_encoded Toy.primitives)
    as (Hp & Hd & _ & _ & _ & Hother).
  split; [| split].
  - destruct (paymentFromJson Toy.payment_json) as [c|e] eqn:E;
      [| discriminate E].
    exists c. split; [reflexivity | by apply (Hp Toy.payment_json)].
  - destruct (delegationFromJson Toy.delegation_json) as [c|e] eqn:E;
      [| discriminate E].
    exists c. split; [reflexivity | by apply (Hd Toy.delegation_json)].
  - apply Hother; discriminate.
Defined.

Lemma sign_propagates_bad_private_key_witness :
  PrivateKey_fromBase58 "not a key" = Throw MalformedKey
  /\ signPayment Toy.payment_json "not a key" Toy.testnet = Throw MalformedKey
  /\ signStakeDelegation Toy.delegation_json "not a key" Toy.testnet
     = Throw MalformedKey
  /\ signString "hello" "not a key" Toy.testnet = Throw MalformedKey.
Proof.
  destruct (sign_propagates_bad_private_key (P := Toy.primitives)
              "not a key" Toy.testnet MalformedKey ltac:(reflexivity))
    as (_ & Hs & _ & _ & Hp & Hd).
  split; [reflexivity |]. split; [| split; [| apply Hs]].
  - destruct (paymentFromJson Toy.payment_json) as [c|e] eqn:E;
      [| discriminate E].
    exact (Hp Toy.payment_json c E).
  - destruct (delegationFromJson Toy.delegation_json) as [c|e] eqn:E;
      [| discriminate E].
    exact (Hd Toy.delegation_json c E).
Defined.






(** * Further properties of the encoding *)

Lemma uint_toBits_mod (width : nat) (x : Z) :
  uint_toBits width (x mod 2 ^ Z.of_nat width) = uint_toBits width x.
Proof.
  unfold uint_toBits. apply map_ext_in. intros i Hi. apply in_seq in Hi.
  apply Z.mod_pow2_bits_low. lia.
Qed.

Lemma uint_toBits_eq (width : nat) (x y : Z) :
  uint_toBits width x = uint_toBits width y
  <-> x mod 2 ^ Z.of_nat width = y mod 2 ^ Z.of_nat width.
Proof.
  split.
  - intros H. apply Z.bits_inj'. intros n Hn.
    destruct (Z_lt_ge_dec n (Z.of_nat width)) as [Hlt | Hge].
    + rewrite !Z.mod_pow2_bits_low by lia.
      unfold uint_toBits in H.
      pose proof (proj1 map_ext_in_iff H (Z.to_nat n)) as Hn'.
      cbv beta in Hn'. rewrite Z2Nat.id in Hn' by lia.
      apply Hn'. apply in_seq. lia.
    + by rewrite !Z.mod_pow2_bits_high by lia.
  - intros H. by rewrite <- (uint_toBits_mod width x), H, uint_toBits_mod.
Qed.

Section Sensitivity.

Context `{P : Primitives}.

(** Two commands that agree on everything but the amount, both amounts
    being unsigned 64-bit values as [UInt64] has them, have the same hash
    input only if the amounts are equal: the encoding tells apart any two
    amounts. *)
Theorem toInputLegacy_amount (c1 c2 : UserCommand) :
  common c1 = common c2 ->
  tag (body c1) = tag (body c2) ->
  source (body c1) = source (body c2) ->
  receiver (body c1) = receiver (body c2) ->
  0 <= amount (body c1) < 2 ^ 64 ->
  0 <= amount (body c2) < 2 ^ 64 ->
  toInputLegacy c1 = toInputLegacy c2
  <-> amount (body c1) = amount (body c2).
Proof.
  intros Hc Ht Hs Hr H1 H2.
  rewrite <- (Z.mod_small (amount (body c1)) (2 ^ 64) H1) at 1.
  rewrite <- (Z.mod_small (amount (body c2)) (2 ^ 64) H2) at 1.
  change 64 with (Z.of_nat 64).
  rewrite <- uint_toBits_eq. split.
  - intros H. apply (f_equal HashInputLegacy.get_bits) in H.
    unfold toInputLegacy in H. rewrite !get_bits_append, !get_bits_body in H.
    rewrite Hc, Ht, Hs, Hr in H.
    repeat apply app_inv_head in H. by apply app_inv_tail in H.
  - intros H. unfold toInputLegacy, bodyToInputLegacy, UInt64.toBits.
    by rewrite Hc, Ht, Hs, Hr, H.
Qed.

(** Two common parts with the same fee payer and memo, whose fees are
    unsigned 64-bit values and whose nonces and valid-until slots are
    unsigned 32-bit values as [UInt64] and [UInt32] have them, have the
    same encoding only if the fees, the nonces and the valid-until slots
    are equal. *)
Theorem commonToInputLegacy_numbers (c1 c2 : Common) :
  feePayer c1 = feePayer c2 ->
  memo c1 = memo c2 ->
  0 <= fee c1 < 2 ^ 64 -> 0 <= fee c2 < 2 ^ 64 ->
  0 <= nonce c1 < 2 ^ 32 -> 0 <= nonce c2 < 2 ^ 32 ->
  0 <= validUntil c1 < 2 ^ 32 -> 0 <= validUntil c2 < 2 ^ 32 ->
  commonToInputLegacy c1 = commonToInputLegacy c2
  <-> fee c1 = fee c2 /\ nonce c1 = nonce c2
      /\ validUntil c1 = validUntil c2.
Proof.
  intros Hp Hm Hf1 Hf2 Hn1 Hn2 Hv1 Hv2.
  rewrite <- (Z.mod_small (fee c1) (2 ^ 64) Hf1) at 1.
  rewrite <- (Z.mod_small (fee c2) (2 ^ 64) Hf2) at 1.
  rewrite <- (Z.mod_small (nonce c1) (2 ^ 32) Hn1) at 1.
  rewrite <- (Z.mod_small (nonce c2) (2 ^ 32) Hn2) at 1.
  rewrite <- (Z.mod_small (validUntil c1) (2 ^ 32) Hv1) at 1.
  rewrite <- (Z.mod_small (validUntil c2) (2 ^ 32) Hv2) at 1.
  change 64 with (Z.of_nat 64). change 32 with (Z.of_nat 32).
  rewrite <- !uint_toBits_eq. split.
  - intros H. apply (f_equal HashInputLegacy.get_bits) in H.
    rewrite !get_bits_common, Hp, Hm in H. unfold UInt64.toBits, UInt32.toBits in H.
    apply app_inj_1 in H as [Hfee H]; [| by rewrite !length_uint_toBits].
    repeat apply app_inv_head in H.
    apply app_inj_1 in H as [Hnonce H]; [| by rewrite !length_uint_toBits].
    apply app_inv_tail in H. done.
  - intros (Hfee & Hnonce & Hvalid).
    unfold commonToInputLegacy, UInt64.toBits, UInt32.toBits.
    by rewrite Hp, Hm, Hfee, Hnonce, Hvalid.
Qed.

End Sensitivity.

(** * Further properties of the string encoding *)

Lemma bytesToBits_one (byte : Z) : bytesToBits [byte] = uint_toBits 8 byte.
Proof. reflexivity. Qed.

(** A byte is told by its eight bits. *)
Lemma byte_bits_inj (b1 b2 : Z) :
  0 <= b1 < 256 -> 0 <= b2 < 256 ->
  rev (bytesToBits [b1]) = rev (bytesToBits [b2]) -> b1 = b2.
Proof.
  intros H1 H2 H. apply (f_equal (@rev bool)) in H.
  rewrite !rev_involutive, !bytesToBits_one in H.
  apply uint_toBits_eq in H. change (2 ^ Z.of_nat 8) with 256 in H.
  by rewrite !Z.mod_small in H.
Qed.

Lemma length_byte_bits (byte : Z) :
  length (rev (bytesToBits [byte])) = 8%nat.
Proof. reflexivity. Qed.

(** So is a sequence of bytes by the bits [stringToInput] makes of it. *)
Lemma bytes_bits_inj (l1 l2 : list Z) :
  Forall (fun b => 0 <= b < 256) l1 ->
  Forall (fun b => 0 <= b < 256) l2 ->
  concat (map (fun byte => rev (bytesToBits [byte])) l1)
  = concat (map (fun byte => rev (bytesToBits [byte])) l2) ->
  l1 = l2.
Proof.
  intros H1. revert l2.
  induction H1 as [|b1 l1 Hb1 _ IH]; intros l2 H2 H;
    destruct H2 as [|b2 l2 Hb2 H2].
  - reflexivity.
  - discriminate H.
  - discriminate H.
  - rewrite !map_cons, !concat_cons in H.
    apply app_inj_1 in H as [Hb H]; [| reflexivity].
    by rewrite (byte_bits_inj b1 b2 Hb1 Hb2 Hb), (IH l2 H2 H).
Qed.

Lemma stringToBytes_range (s : string) :
  Forall (fun b => 0 <= b < 256) (stringToBytes s).
Proof.
  unfold stringToBytes. apply Forall_map, Forall_forall. intros c _.
  pose proof (N_ascii_bounded c). simpl. lia.
Qed.

(** Two strings whose UTF-8 bytes differ never have the same hash input:
    the bits keep all of the bytes. *)
Theorem stringToInput_injective (s1 s2 : string) :
  stringToBytes s1 <> stringToBytes s2 ->
  stringToInput s1 <> stringToInput s2.
Proof.
  intros Hne H. apply Hne.
  apply bytes_bits_inj; [apply stringToBytes_range .. |].
  apply (f_equal HashInputLegacy.get_bits) in H. exact H.
Qed.

Lemma stringToInput_injective_witness :
  stringToBytes "hello world" <> stringToBytes "hello world!"
  /\ stringToInput "hello world" <> stringToInput "hello world!".
Proof.
  assert (H : stringToBytes "hello world" <> stringToBytes "hello world!")
    by (vm_compute; discriminate).
  split; [exact H | exact (stringToInput_injective _ _ H)].
Defined.

(** A string whose UTF-8 bytes are those of a first string followed by
    those of a second has the hash input of the first followed by that of
    the second; a string with no byte has the empty hash input. *)
Theorem stringToInput_append (s s1 s2 : string) :
  (stringToBytes s = stringToBytes s1 ++ stringToBytes s2 ->
   stringToInput s
   = HashInputLegacy.append (stringToInput s1) (stringToInput s2))
  /\ (stringToBytes s = [] -> stringToInput s = HashInputLegacy.empty).
Proof.
  unfold stringToInput. split; intros ->.
  - by rewrite map_app, concat_app.
  - reflexivity.
Qed.

Lemma stringToInput_append_witness :
  stringToBytes "hello world" = stringToBytes "hello " ++ stringToBytes "world"
  /\ stringToInput "hello world"
     = HashInputLegacy.append (stringToInput "hello ") (stringToInput "world").
Proof.
  split; [reflexivity |].
  apply (stringToInput_append "hello world" "hello " "world"). reflexivity.
Defined.

(** * Further properties of the translation from JSON *)

Section TranslationEdges.

Context `{P : Primitives}.

Lemma paymentFromJson_common (payment : jsval) (command : UserCommand) :
  paymentFromJson payment = Ok command ->
  exists common_json,
    get payment "common" = Ok common_json
    /\ commonFromJson common_json = Ok (common command)
    /\ tag (body command) = "Payment".
Proof.
  unfold paymentFromJson. intros H. ok_stages H. injection H as <-. eauto.
Qed.

Lemma delegationFromJson_common (delegation : jsval) (command : UserCommand) :
  delegationFromJson delegation = Ok command ->
  exists common_json,
    get delegation "common" = Ok common_json
    /\ commonFromJson common_json = Ok (common command)
    /\ tag (body command) = "StakeDelegation".
Proof.
  unfold delegationFromJson. intros H. ok_stages H. injection H as <-. eauto.
Qed.

(** A payment and a delegation translated from JSON with the same [common]
    property never have the same hash input, whatever their bodies hold:
    after the bits of the common part, the third bit is clear for the
    payment and set for the delegation. *)
Theorem payment_json_never_delegation_json
    (payment delegation : jsval) (c1 c2 : UserCommand) :
  paymentFromJson payment = Ok c1 ->
  delegationFromJson delegation = Ok c2 ->
  get payment "common" = get delegation "common" ->
  toInputLegacy c1 <> toInputLegacy c2
  /\ let n := length (HashInputLegacy.get_bits
                        (commonToInputLegacy (common c1))) in
     HashInputLegacy.get_bits (toInputLegacy c1) !! (n + 2)%nat = Some false
     /\ HashInputLegacy.get_bits (toInputLegacy c2) !! (n + 2)%nat = Some true.
Proof.
  intros H1 H2 Hsame.
  destruct (paymentFromJson_common _ _ H1) as (j1 & Hj1 & Hc1 & Ht1).
  destruct (delegationFromJson_common _ _ H2) as (j2 & Hj2 & Hc2 & Ht2).
  assert (Hc : common c1 = common c2).
  { rewrite Hj1, Hj2 in Hsame. injection Hsame as <-. congruence. }
  assert (Hat1 : HashInputLegacy.get_bits (toInputLegacy c1)
                 !! (length (HashInputLegacy.get_bits
                               (commonToInputLegacy (common c1))) + 2)%nat
                 = Some false).
  { unfold toInputLegacy. rewrite get_bits_append, lookup_app_r by lia.
    rewrite get_bits_body, Ht1.
    by replace (_ + 2 - _)%nat with 2%nat by lia. }
  assert (Hat2 : HashInputLegacy.get_bits (toInputLegacy c2)
                 !! (length (HashInputLegacy.get_bits
                               (commonToInputLegacy (common c1))) + 2)%nat
                 = Some true).
  { unfold toInputLegacy. rewrite Hc, get_bits_append, lookup_app_r by lia.
    rewrite get_bits_body, Ht2.
    by replace (_ + 2 - _)%nat with 2%nat by lia. }
  split; [| by split].
  intros Heq. rewrite Heq, Hat2 in Hat1. discriminate Hat1.
Qed.

(** A command that is [undefined] or [null], or an object without a
    [common] or without a [body] property, makes both translations throw
    a [TypeError], whatever the decoders would do with the rest. *)
Theorem translation_of_incomplete_json (m : gmap string jsval) :
  paymentFromJson JUndefined = Throw TypeError
  /\ paymentFromJson JNull = Throw TypeError
  /\ delegationFromJson JUndefined = Throw TypeError
  /\ delegationFromJson JNull = Throw TypeError
  /\ commonFromJson JUndefined = Throw TypeError
  /\ (m !! "common" = None \/ m !! "body" = None ->
      paymentFromJson (JObject m) = Throw TypeError
      /\ delegationFromJson (JObject m) = Throw TypeError).
Proof.
  repeat (split; [reflexivity |]).
  intros [H | H]; unfold paymentFromJson, delegationFromJson, get; rewrite H.
  - split.
    + destruct (m !! "body") as [[]|]; reflexivity.
    + destruct (m !! "body") as [[]|]; reflexivity.
  - split; reflexivity.
Qed.

(** Only the properties [source], [receiver] and [amount] of the body of
    a payment are read. *)
Lemma paymentFromJson_body (m b : gmap string jsval) :
  paymentFromJson (JObject (<["body" := JObject b]> m))
  = (common ← commonFromJson (default JUndefined (m !! "common"));
     source ← PublicKey_fromJSON (default JUndefined (b !! "source"));
     receiver ← PublicKey_fromJSON (default JUndefined (b !! "receiver"));
     amount ← UInt64_fromJSON (default JUndefined (b !! "amount"));
     mret {| common := common;
             body := {| tag := "Payment"; source := source;
                        receiver := receiver; amount := amount |} |}).
Proof.
  unfold paymentFromJson, get.
  rewrite lookup_insert_eq, lookup_insert_ne by done. reflexivity.
Qed.

(** The translations read the properties they name and nothing else: any
    other property of the command, of its common part or of the body of a
    payment leaves the result as it is. *)
Theorem translation_ignores_other_properties
    (m c b : gmap string jsval) (k : string) (v : jsval) :
  (k <> "fee" -> k <> "feePayer" -> k <> "nonce" -> k <> "validUntil" ->
   k <> "memo" ->
   commonFromJson (JObject (<[k := v]> c)) = commonFromJson (JObject c))
  /\ (k <> "common" -> k <> "body" ->
      paymentFromJson (JObject (<[k := v]> m)) = paymentFromJson (JObject m)
      /\ delegationFromJson (JObject (<[k := v]> m))
         = delegationFromJson (JObject m))
  /\ (k <> "source" -> k <> "receiver" -> k <> "amount" ->
      paymentFromJson (JObject (<["body" := JObject (<[k := v]> b)]> m))
      = paymentFromJson (JObject (<["body" := JObject b]> m))).
Proof.
  split; [| split].
  - intros. unfold commonFromJson, get.
    by rewrite !lookup_insert_ne by congruence.
  - intros. unfold paymentFromJson, delegationFromJson, get.
    by rewrite !lookup_insert_ne by congruence.
  - intros. rewrite !paymentFromJson_body.
    by rewrite !lookup_insert_ne by congruence.
Qed.

End TranslationEdges.

Lemma translation_of_incomplete_json_witness :
  paymentFromJson (JObject {[ "common" := Toy.common_json ]}) = Throw TypeError
  /\ delegationFromJson (JObject {[ "common" := Toy.common_json ]})
     = Throw TypeError.
Proof.
  apply (translation_of_incomplete_json (P := Toy.primitives)
           {[ "common" := Toy.common_json ]}).
  right. reflexivity.
Defined.

Lemma translation_ignores_other_properties_witness :
  paymentFromJson
    (JObject (<["body" := JObject (<["note" := JString "x"]>
                                     {[ "source" := JString "11";
                                        "receiver" := JString "7";
                                        "amount" := JString "5" ]})]>
                {[ "common" := Toy.common_json ]}))
  = paymentFromJson
      (JObject (<["body" := JObject {[ "source" := JString "11";
                                       "receiver" := JString "7";
                                       "amount" := JString "5" ]}]>
                  {[ "common" := Toy.common_json ]})).
Proof.
  destruct (translation_ignores_other_properties (P := Toy.primitives)
              {[ "common" := Toy.common_json ]} ∅
              {[ "source" := JString "11"; "receiver" := JString "7";
                 "amount" := JString "5" ]}
              "note" (JString "x")) as (_ & _ & H).
  apply H; discriminate.
Defined.

Lemma toInputLegacy_amount_witness :
  toInputLegacy Toy.a_payment
  <> toInputLegacy
       {| common := Toy.a_common;
          body := {| tag := "Payment"; source := 11%N; receiver := 7%N;
                     amount := 18446744073709551615 |} |}.
Proof.
  intros H.
  apply (toInputLegacy_amount (P := Toy.primitives)) in H;
    [discriminate H | reflexivity .. | |]; simpl; lia.
Defined.

Lemma commonToInputLegacy_numbers_witness :
  commonToInputLegacy Toy.a_common
  <> commonToInputLegacy
       {| fee := 18446744073709551615; feePayer := 11%N; nonce := 1;
          validUntil := 4294967295; memo := "hello" |}.
Proof.
  intros H.
  apply (commonToInputLegacy_numbers (P := Toy.primitives)) in H;
    [| reflexivity | reflexivity | simpl; lia ..].
  destruct H as (_ & H & _). discriminate H.
Defined.

Lemma payment_json_never_delegation_json_witness :
  exists c1 c2,
    paymentFromJson Toy.payment_json = Ok c1
    /\ delegationFromJson Toy.delegation_json = Ok c2
    /\ toInputLegacy c1 <> toInputLegacy c2.
Proof.
  destruct (paymentFromJson Toy.payment_json) as [c1|e] eqn:E1;
    [| discriminate E1].
  destruct (delegationFromJson Toy.delegation_json) as [c2|e] eqn:E2;
    [| discriminate E2].
  exists c1, c2. split; [reflexivity | split; [reflexivity |]].
  apply (payment_json_never_delegation_json (P := Toy.primitives)
           Toy.payment_json Toy.delegation_json c1 c2 E1 E2).
  reflexivity.
Defined.

(** * Further properties of signing *)

Section SigningEdges.

Context `{P : Primitives}.

(** Signing returns a signature exactly when the command translates and
    the private key decodes, and then it is the JSON form of the signature
    of the hash input; a failure of the translation is the one thrown,
    whatever the private key. *)
Theorem sign_succeeds_iff (payment delegation signatureJson : jsval)
    (string privateKeyBase58 : String.string) (networkId : NetworkId) :
  (signPayment payment privateKeyBase58 networkId = Ok signatureJson
   <-> exists command sk,
         paymentFromJson payment = Ok command
         /\ PrivateKey_fromBase58 privateKeyBase58 = Ok sk
         /\ signatureJson
            = Signature_toJSON (signLegacy (toInputLegacy command) sk networkId))
  /\ (signStakeDelegation delegation privateKeyBase58 networkId
      = Ok signatureJson
      <-> exists command sk,
            delegationFromJson delegation = Ok command
            /\ PrivateKey_fromBase58 privateKeyBase58 = Ok sk
            /\ signatureJson
               = Signature_toJSON
                   (signLegacy (toInputLegacy command) sk networkId))
  /\ (signString string privateKeyBase58 networkId = Ok signatureJson
      <-> exists sk,
            PrivateKey_fromBase58 privateKeyBase58 = Ok sk
            /\ signatureJson
               = Signature_toJSON
                   (signLegacy (stringToInput string) sk networkId))
  /\ (forall e,
        paymentFromJson payment = Throw e ->
        signPayment payment privateKeyBase58 networkId = Throw e)
  /\ (forall e,
        delegationFromJson delegation = Throw e ->
        signStakeDelegation delegation privateKeyBase58 networkId = Throw e).
Proof.
  split; [| split; [| split; [| split]]].
  - unfold signPayment, signUserCommand. split.
    + intros H. ok_stages H. injection H as <-. eauto.
    + by intros (c & sk & -> & Hsk & ->); simpl; rewrite Hsk.
  - unfold signStakeDelegation, signUserCommand. split.
    + intros H. ok_stages H. injection H as <-. eauto.
    + by intros (c & sk & -> & Hsk & ->); simpl; rewrite Hsk.
  - unfold signString. split.
    + intros H. ok_stages H. injection H as <-. eauto.
    + by intros (sk & -> & ->).
  - intros e H. unfold signPayment. by rewrite H.
  - intros e H. unfold signStakeDelegation. by rewrite H.
Qed.

End SigningEdges.

Lemma sign_succeeds_iff_witness :
  signPayment JUndefined "not a key" Toy.testnet = Throw TypeError
  /\ signStakeDelegation JNull "not a key" Toy.testnet = Throw TypeError.
Proof.
  destruct (sign_succeeds_iff (P := Toy.primitives) JUndefined JNull JNull
              "hello" "not a key" Toy.testnet) as (_ & _ & _ & Hp & Hd).
  split; [apply Hp | apply Hd]; reflexivity.
Defined.

(** * The caches of the fetch module *)

Lemma no_semicolon_String (c : ascii) (s : string) :
  Fetch.no_semicolon (String c s) = true ->
  c <> ";"%char /\ Fetch.no_semicolon s = true.
Proof.
  unfold Fetch.no_semicolon. simpl. intros H.
  apply andb_true_iff in H as [Hc Hs]. split; [| exact Hs].
  intros ->. discriminate Hc.
Qed.

(** A text without semicolon is recovered from what follows it up to the
    first semicolon. *)
Lemma semicolon_split (a1 a2 r1 r2 : string) :
  Fetch.no_semicolon a1 = true ->
  Fetch.no_semicolon a2 = true ->
  a1 +:+ ";" +:+ r1 = a2 +:+ ";" +:+ r2 ->
  a1 = a2 /\ r1 = r2.
Proof.
  revert a2. induction a1 as [|c1 a1 IH]; intros [|c2 a2] H1 H2 H.
  - injection H as H. split; [reflexivity | exact H].
  - injection H as <- _.
    by destruct (no_semicolon_String _ _ H2) as [Hc _].
  - injection H as -> _.
    by destruct (no_semicolon_String _ _ H1) as [Hc _].
  - injection H as -> H.
    destruct (no_semicolon_String _ _ H1) as [_ H1'].
    destruct (no_semicolon_String _ _ H2) as [_ H2'].
    by destruct (IH a2 H1' H2' H) as [-> ->].
Qed.

Section Caches.

Context `{C : Fetch.Collaborators}.

Lemma accountCacheKey_inj (pk1 pk2 : Fetch.PublicKey) (t1 t2 : Fetch.Field)
    (e1 e2 : string) :
  Fetch.no_semicolon (Fetch.PublicKey_toBase58 pk1) = true ->
  Fetch.no_semicolon (Fetch.PublicKey_toBase58 pk2) = true ->
  Fetch.no_semicolon (Fetch.TokenId_toBase58 t1) = true ->
  Fetch.no_semicolon (Fetch.TokenId_toBase58 t2) = true ->
  Fetch.accountCacheKey pk1 t1 e1 = Fetch.accountCacheKey pk2 t2 e2 ->
  Fetch.PublicKey_toBase58 pk1 = Fetch.PublicKey_toBase58 pk2
  /\ Fetch.TokenId_toBase58 t1 = Fetch.TokenId_toBase58 t2
  /\ e1 = e2.
Proof.
  intros Hp1 Hp2 Ht1 Ht2 H. unfold Fetch.accountCacheKey in H.
  apply semicolon_split in H as [Hpk H]; [| done ..].
  apply semicolon_split in H as [Htok H]; done.
Qed.

(** As long as the base58 texts have no semicolon, two cache keys are
    equal exactly when the public keys and the token ids have the same
    base58 text and the endpoints are the same. *)
Theorem accountCacheKey_injective (pk1 pk2 : Fetch.PublicKey)
    (t1 t2 : Fetch.Field) (e1 e2 : string) :
  Fetch.no_semicolon (Fetch.PublicKey_toBase58 pk1) = true ->
  Fetch.no_semicolon (Fetch.PublicKey_toBase58 pk2) = true ->
  Fetch.no_semicolon (Fetch.TokenId_toBase58 t1) = true ->
  Fetch.no_semicolon (Fetch.TokenId_toBase58 t2) = true ->
  Fetch.accountCacheKey pk1 t1 e1 = Fetch.accountCacheKey pk2 t2 e2
  <-> Fetch.PublicKey_toBase58 pk1 = Fetch.PublicKey_toBase58 pk2
      /\ Fetch.TokenId_toBase58 t1 = Fetch.TokenId_toBase58 t2
      /\ e1 = e2.
Proof.
  intros Hp1 Hp2 Ht1 Ht2. split; [by apply accountCacheKey_inj |].
  intros (Hpk & Htok & ->). unfold Fetch.accountCacheKey.
  by rewrite Hpk, Htok.
Qed.

(** An account put in the cache is the one read back for its public key,
    its token id and the endpoint it was put under, whatever the cache
    held before; with the endpoint left out on both sides it is the
    default endpoint of the module. *)
Theorem cached_account_is_read_back (account : Fetch.Account)
    (partialAccount : Fetch.PartialAccount) (graphqlEndpoint : string)
    (now : Z) (st : Fetch.State) :
  Fetch.fillPartialAccount partialAccount = Fetch.Returns account ->
  Fetch.getCachedAccount (Fetch.Account_publicKey account)
    (Fetch.Account_tokenId account) (Some graphqlEndpoint)
    (Fetch.addCachedAccountInternal account graphqlEndpoint now st)
  = Some account
  /\ Fetch.getCachedAccount (Fetch.Account_publicKey account)
       (Fetch.Account_tokenId account) (Some graphqlEndpoint)
       (fst (Fetch.addCachedAccount partialAccount (Some graphqlEndpoint)
               now st))
     = Some account
  /\ Fetch.getCachedAccount (Fetch.Account_publicKey account)
       (Fetch.Account_tokenId account) None
       (fst (Fetch.addCachedAccount partialAccount None now st))
     = Some account
  /\ Fetch.getCachedAccount (Fetch.Account_publicKey account)
       (Fetch.Account_tokenId account)
       (Some (Fetch.defaultGraphqlEndpoint st))
       (fst (Fetch.addCachedAccount partialAccount None now st))
     = Some account.
Proof.
  intros Hfill.
  assert (Hget : forall e s,
             Fetch.getCachedAccount (Fetch.Account_publicKey account)
               (Fetch.Account_tokenId account) (Some e)
               (Fetch.addCachedAccountInternal account e now s)
             = Some account).
  { intros e s. unfold Fetch.getCachedAccount, Fetch.addCachedAccountInternal.
    simpl. by rewrite lookup_insert_eq. }
  unfold Fetch.addCachedAccount. rewrite Hfill. simpl.
  repeat split; apply Hget.
Qed.

(** Putting an account in the cache leaves what is cached for any other
    public key, token id or endpoint as it was (base58 texts have no
    semicolon). *)
Theorem cached_account_leaves_others (account : Fetch.Account)
    (publicKey : Fetch.PublicKey) (tokenId : Fetch.Field)
    (graphqlEndpoint graphqlEndpoint' : string) (now : Z) (st : Fetch.State) :
  Fetch.no_semicolon
    (Fetch.PublicKey_toBase58 (Fetch.Account_publicKey account)) = true ->
  Fetch.no_semicolon (Fetch.PublicKey_toBase58 publicKey) = true ->
  Fetch.no_semicolon
    (Fetch.TokenId_toBase58 (Fetch.Account_tokenId account)) = true ->
  Fetch.no_semicolon (Fetch.TokenId_toBase58 tokenId) = true ->
  Fetch.PublicKey_toBase58 (Fetch.Account_publicKey account)
  <> Fetch.PublicKey_toBase58 publicKey
  \/ Fetch.TokenId_toBase58 (Fetch.Account_tokenId account)
     <> Fetch.TokenId_toBase58 tokenId
  \/ graphqlEndpoint <> graphqlEndpoint' ->
  Fetch.getCachedAccount publicKey tokenId (Some graphqlEndpoint')
    (Fetch.addCachedAccountInternal account graphqlEndpoint now st)
  = Fetch.getCachedAccount publicKey tokenId (Some graphqlEndpoint') st.
Proof.
  intros Hp1 Hp2 Ht1 Ht2 Hne.
  unfold Fetch.getCachedAccount, Fetch.addCachedAccountInternal. simpl.
  rewrite lookup_insert_ne; [done |]. intros Hkey.
  apply accountCacheKey_inj in Hkey as (Hpk & Htok & He); [| done ..].
  destruct Hne as [Hne | [Hne | Hne]]; contradiction.
Qed.

End Caches.

Lemma accountCacheKey_injective_witness :
  Fetch.accountCacheKey (C := FetchToy.collaborators) "B62q" "1" "http://a;b"
  <> Fetch.accountCacheKey (C := FetchToy.collaborators) "B62q" "1" "http://a".
Proof.
  intros H.
  apply (accountCacheKey_injective (C := FetchToy.collaborators)) in H;
    [| reflexivity ..].
  destruct H as (_ & _ & H). discriminate H.
Defined.

Lemma cached_account_is_read_back_witness :
  Fetch.getCachedAccount (C := FetchToy.collaborators) "B62q" "1" None
    (fst (Fetch.addCachedAccount ("B62q", "1") None 5
            (Fetch.setGraphqlEndpoint "http://node" Fetch.initial)))
  = Some ("B62q", "1").
Proof.
  apply (cached_account_is_read_back (C := FetchToy.collaborators)
           ("B62q", "1") ("B62q", "1") "http://node" 5
           (Fetch.setGraphqlEndpoint "http://node" Fetch.initial)).
  reflexivity.
Defined.

Lemma cached_account_leaves_others_witness :
  Fetch.getCachedAccount (C := FetchToy.collaborators) "B62q" "1"
    (Some "http://node")
    (Fetch.addCachedAccountInternal ("B62r", "1") "http://node" 5
       (Fetch.addCachedAccountInternal ("B62q", "1") "http://node" 4
          Fetch.initial))
  = Some ("B62q", "1").
Proof.
  rewrite (cached_account_leaves_others (C := FetchToy.collaborators)
             ("B62r", "1") "B62q" "1" "http://node" "http://node" 5);
    [reflexivity | reflexivity .. |].
  left. discriminate.
Defined.

(** * The blocks at the best tip *)

Section BestTip.

Variable best : jsval -> bool.

Lemma filterNotBestTip_filter (events : list jsval) :
  (forall e, In e events -> Fetch.atBestTip e = Ok (best e)) ->
  Fetch.filterNotBestTip events
  = Ok (List.filter (fun e => negb (best e)) events).
Proof.
  induction events as [|e events IH]; intros H; [reflexivity |].
  simpl. rewrite (H e) by (by left). simpl.
  rewrite IH by (intros e' He'; apply H; by right). simpl.
  by destruct (best e).
Qed.

(** The loop, started on [remaining] with [n] blocks counted so far. *)
Lemma bestTipLoop_filter (remaining events : list jsval) (n : nat) :
  (forall e, In e remaining -> Fetch.atBestTip e = Ok (best e)) ->
  (forall e, In e events -> Fetch.atBestTip e = Ok (best e)) ->
  (n <= 1)%nat ->
  Fetch.bestTipLoop remaining events n
  = Ok (if (1 <? n + length (List.filter best remaining))%nat
        then List.filter (fun e => negb (best e)) events
        else events).
Proof.
  revert n. induction remaining as [|e remaining IH]; intros n Hrem Hall Hn.
  - simpl. replace (1 <? n + 0)%nat with false; [reflexivity |].
    symmetry. apply Nat.ltb_ge. lia.
  - simpl. rewrite (Hrem e) by (by left). simpl.
    destruct (best e) eqn:Hbest.
    + destruct (1 <? S n)%nat eqn:Hlt.
      * rewrite filterNotBestTip_filter by done.
        replace (1 <? n + length (e :: List.filter best remaining))%nat
          with true; [reflexivity |].
        symmetry. apply Nat.ltb_lt. apply Nat.ltb_lt in Hlt. simpl. lia.
      * apply Nat.ltb_ge in Hlt.
        rewrite IH; [| intros e' He'; apply Hrem; by right | done | lia].
        by replace (S n + length (List.filter best remaining))%nat
          with (n + length (e :: List.filter best remaining))%nat
          by (simpl; lia).
    + replace (1 <? n)%nat with false
        by (symmetry; apply Nat.ltb_ge; lia).
      apply IH; [intros e' He'; apply Hrem; by right | done | done].
Qed.

(** The loop of [fetchEvents] over well-formed events: with two or more
    blocks at the best tip, all of them are dropped and the other events
    are kept in their order; with one or none, the list is returned as it
    is.  So at most one block at the best tip is ever left. *)
Theorem dropBestTipBlocks_filter (fetchedEvents : list jsval) :
  (forall e, In e fetchedEvents -> Fetch.atBestTip e = Ok (best e)) ->
  exists kept,
    Fetch.dropBestTipBlocks fetchedEvents = Ok kept
    /\ kept = (if (2 <=? length (List.filter best fetchedEvents))%nat
               then List.filter (fun e => negb (best e)) fetchedEvents
               else fetchedEvents)
    /\ (length (List.filter best kept) <= 1)%nat
    /\ List.filter (fun e => negb (best e)) kept
       = List.filter (fun e => negb (best e)) fetchedEvents.
Proof.
  intros H. eexists. split; [| split; [reflexivity |]].
  - unfold Fetch.dropBestTipBlocks. rewrite bestTipLoop_filter by (done || lia).
    simpl. by destruct (length (List.filter best fetchedEvents)) as [|[|n]].
  - destruct (2 <=? length (List.filter best fetchedEvents))%nat eqn:E.
    + split.
      * assert (Hnone : List.filter best
                          (List.filter (fun e => negb (best e)) fetchedEvents)
                        = []).
        { clear. induction fetchedEvents as [|e l IH]; [reflexivity |].
          simpl. destruct (best e) eqn:Hb; simpl; [exact IH |].
          by rewrite Hb. }
        rewrite Hnone. simpl. lia.
      * clear. induction fetchedEvents as [|e l IH]; [reflexivity |].
        simpl. destruct (best e) eqn:Hb; simpl; [exact IH |].
        by rewrite Hb, IH.
    + apply Nat.leb_gt in E. split; [lia | reflexivity].
Qed.

End BestTip.

Lemma dropBestTipBlocks_filter_witness :
  Fetch.dropBestTipBlocks
    [FetchToy.event 0 "a"; FetchToy.event 1 "b"; FetchToy.event 0 "c"]
  = Ok [FetchToy.event 1 "b"]
  /\ Fetch.dropBestTipBlocks [FetchToy.event 0 "a"; FetchToy.event 1 "b"]
     = Ok [FetchToy.event 0 "a"; FetchToy.event 1 "b"].
Proof.
  split.
  - destruct (dropBestTipBlocks_filter
                (fun e => match Fetch.atBestTip e with
                          | Ok b => b
                          | Throw _ => false
                          end)
                [FetchToy.event 0 "a"; FetchToy.event 1 "b";
                 FetchToy.event 0 "c"])
      as (kept & Hrun & Hkept & _).
    + intros e [<- | [<- | [<- | []]]]; reflexivity.
    + rewrite Hrun, Hkept. reflexivity.
  - destruct (dropBestTipBlocks_filter
                (fun e => match Fetch.atBestTip e with
                          | Ok b => b
                          | Throw _ => false
                          end)
                [FetchToy.event 0 "a"; FetchToy.event 1 "b"])
      as (kept & Hrun & Hkept & _).
    + intros e [<- | [<- | []]]; reflexivity.
    + rewrite Hrun, Hkept. reflexivity.
Defined.

(** * Requests *)

Section Requests.

Context `{C : Fetch.Collaborators}.

(** A request throws when the endpoint is still ["none"], before anything
    is sent.  With any other endpoint every failure of [fetch] and of
    [response.json()] is caught: the request gives the data with no error
    when the response is [ok] and its JSON is read, the status of the
    response when it is not [ok], and the status 408 or 500 around the
    text of the failure otherwise; it only throws if that text cannot be
    made. *)
Theorem makeGraphqlRequest_outcomes (query : string)
    (graphqlEndpoint : option string) (fetched : Fetch.outcome Fetch.Response)
    (st : Fetch.State) :
  (Fetch.endpoint_or_default graphqlEndpoint st = "none" ->
   exists message,
     Fetch.makeGraphqlRequest query graphqlEndpoint fetched st
     = Fetch.Throws (Fetch.Error message))
  /\ (Fetch.endpoint_or_default graphqlEndpoint st <> "none" ->
      (forall response data,
          fetched = Fetch.Returns response ->
          Fetch.ok response = true ->
          Fetch.json response = Fetch.Returns data ->
          Fetch.makeGraphqlRequest query graphqlEndpoint fetched st
          = Fetch.Returns (data, None))
      /\ (forall response,
            fetched = Fetch.Returns response ->
            Fetch.ok response = false ->
            Fetch.makeGraphqlRequest query graphqlEndpoint fetched st
            = Fetch.Returns
                (JUndefined,
                 Some {| Fetch.statusCode := Fetch.status response;
                         Fetch.statusText :=
                           Fetch.response_statusText response |}))
      /\ (forall t message,
            fetched = Fetch.Throws t
            \/ (exists response,
                   fetched = Fetch.Returns response
                   /\ Fetch.ok response = true
                   /\ Fetch.json response = Fetch.Throws t) ->
            Fetch.JSON_stringify t = Fetch.Returns message ->
            Fetch.makeGraphqlRequest query graphqlEndpoint fetched st
            = Fetch.Returns
                (JUndefined,
                 Some (if Fetch.instanceof_AbortSignal t
                       then {| Fetch.statusCode := 408;
                               Fetch.statusText :=
                                 "Request Timeout: " +:+ message |}
                       else {| Fetch.statusCode := 500;
                               Fetch.statusText :=
                                 "Unknown Error: " +:+ message |})))
      /\ (forall thrown,
            Fetch.makeGraphqlRequest query graphqlEndpoint fetched st
            = Fetch.Throws thrown ->
            exists t, Fetch.JSON_stringify t = Fetch.Throws thrown)
      /\ (forall response error,
            Fetch.makeGraphqlRequest query graphqlEndpoint fetched st
            = Fetch.Returns (response, Some error) ->
            response = JUndefined)).
Proof.
  unfold Fetch.makeGraphqlRequest. split.
  - intros ->. simpl. eauto.
  - intros Hne. apply String.eqb_neq in Hne. rewrite Hne.
    split; [| split; [| split; [| split]]].
    + intros r d -> Hok Hjson. simpl. unfold Fetch.checkResponseStatus.
      by rewrite Hok, Hjson.
    + intros r -> Hok. simpl. unfold Fetch.checkResponseStatus.
      by rewrite Hok.
    + intros t msg [-> | (r & -> & Hok & Hjson)] Hmsg; simpl.
      * unfold Fetch.inferError. rewrite Hmsg. simpl.
        by destruct (Fetch.instanceof_AbortSignal t).
      * unfold Fetch.checkResponseStatus. rewrite Hok, Hjson. simpl.
        unfold Fetch.inferError. rewrite Hmsg. simpl.
        by destruct (Fetch.instanceof_AbortSignal t).
    + intros thrown H.
      destruct fetched as [r|t]; simpl in H.
      * unfold Fetch.checkResponseStatus in H.
        destruct (Fetch.ok r); [| discriminate H].
        destruct (Fetch.json r) as [d|t]; [discriminate H |]. simpl in H.
        unfold Fetch.inferError in H. exists t.
        destruct (Fetch.JSON_stringify t) as [msg|t']; simpl in H;
          [by destruct (Fetch.instanceof_AbortSignal t) | by injection H as ->].
      * unfold Fetch.inferError in H. exists t.
        destruct (Fetch.JSON_stringify t) as [msg|t']; simpl in H;
          [by destruct (Fetch.instanceof_AbortSignal t) | by injection H as ->].
    + intros response error H.
      destruct fetched as [r|t]; simpl in H.
      * unfold Fetch.checkResponseStatus in H.
        destruct (Fetch.ok r); [| by injection H as <- _].
        destruct (Fetch.json r) as [d|t]; [discriminate H |]. simpl in H.
        destruct (Fetch.inferError t); [by injection H as <- _ | discriminate H].
      * destruct (Fetch.inferError t); [by injection H as <- _ | discriminate H].
Qed.

(** When [fetchAccountInternal] returns an account, there is no error and
    the account is in the cache under its own public key and token id and
    the endpoint asked; in every other case (an error returned, or a
    throw) the tables are left as they were.  An account that the node
    gives as [null] is the error 404. *)
Theorem fetchAccountInternal_caches (publicKey : string)
    (tokenId graphqlEndpoint : option string)
    (fetched : Fetch.outcome Fetch.Response) (now : Z) (st : Fetch.State) :
  match Fetch.fetchAccountInternal publicKey tokenId graphqlEndpoint fetched
          now st with
  | (st', Fetch.Returns {| Fetch.account := Some account;
                           Fetch.error := error |}) =>
      error = None
      /\ Fetch.getCachedAccount (Fetch.Account_publicKey account)
           (Fetch.Account_tokenId account) graphqlEndpoint st'
         = Some account
      /\ st' = Fetch.addCachedAccountInternal account
                 (Fetch.endpoint_or_default graphqlEndpoint st) now st
  | (st', Fetch.Returns {| Fetch.account := None; Fetch.error := error |}) =>
      is_Some error /\ st' = st
  | (st', Fetch.Throws _) => st' = st
  end
  /\ (forall response,
        Fetch.makeGraphqlRequest
          (Fetch.accountQuery publicKey
             (default (Fetch.TokenId_toBase58 Fetch.TokenId_default) tokenId))
          (Some (Fetch.endpoint_or_default graphqlEndpoint st)) fetched st
        = Fetch.Returns (response, None) ->
        (data ← get response "data"; get data "account") = Ok JNull ->
        Fetch.fetchAccountInternal publicKey tokenId graphqlEndpoint fetched
          now st
        = (st,
           Fetch.Returns
             {| Fetch.account := None;
                Fetch.error :=
                  Some {| Fetch.statusCode := 404;
                          Fetch.statusText :=
                            "fetchAccount: Account with public key "
                            +:+ publicKey +:+ " does not exist." |} |})).
Proof.
  unfold Fetch.fetchAccountInternal. split.
  - destruct (Fetch.makeGraphqlRequest _ _ _ _) as [[response [e|]]|t];
      [by eauto | | done].
    destruct (Fetch.lift _) as [fetchedAccount|t]; [| done].
    destruct fetchedAccount; try (by eauto);
      (destruct (Fetch.parseFetchedAccount _) as [a|t]; [| done]);
      (split; [reflexivity | split; [| reflexivity]]);
      unfold Fetch.getCachedAccount, Fetch.addCachedAccountInternal;
      simpl; by rewrite lookup_insert_eq.
  - intros response Hreq Hnull. by rewrite Hreq, Hnull.
Qed.

(** When [fetchLastBlock] returns a network state, that state is in the
    cache under the endpoint asked and the other tables are untouched; a
    throw leaves all the tables as they were.  It throws the status text
    of a failed request, [Failed to fetch latest network state.] when the
    answer has no first block, and a [TypeError] when that block is
    [null]. *)
Theorem fetchLastBlock_caches (graphqlEndpoint : option string)
    (fetched : Fetch.outcome Fetch.Response) (now : Z) (st : Fetch.State) :
  match Fetch.fetchLastBlock graphqlEndpoint fetched now st with
  | (st', Fetch.Returns network) =>
      Fetch.getCachedNetwork graphqlEndpoint st' = Some network
      /\ Fetch.accountCache st' = Fetch.accountCache st
      /\ Fetch.accountsToFetch st' = Fetch.accountsToFetch st
      /\ Fetch.networksToFetch st' = Fetch.networksToFetch st
      /\ Fetch.defaultGraphqlEndpoint st' = Fetch.defaultGraphqlEndpoint st
  | (st', Fetch.Throws _) => st' = st
  end
  /\ (forall resp error,
        Fetch.makeGraphqlRequest Fetch.lastBlockQuery
          (Some (Fetch.endpoint_or_default graphqlEndpoint st)) fetched st
        = Fetch.Returns (resp, Some error) ->
        Fetch.fetchLastBlock graphqlEndpoint fetched now st
        = (st, Fetch.Throws (Fetch.Error (Fetch.statusText error))))
  /\ (forall resp,
        Fetch.makeGraphqlRequest Fetch.lastBlockQuery
          (Some (Fetch.endpoint_or_default graphqlEndpoint st)) fetched st
        = Fetch.Returns (resp, None) ->
        (Fetch.optional_get
           (Fetch.optional_get (Fetch.optional_get resp "data") "bestChain")
           "0" = JUndefined ->
         Fetch.fetchLastBlock graphqlEndpoint fetched now st
         = (st,
            Fetch.Throws (Fetch.Error "Failed to fetch latest network state.")))
        /\ (Fetch.optional_get
              (Fetch.optional_get (Fetch.optional_get resp "data") "bestChain")
              "0" = JNull ->
            Fetch.fetchLastBlock graphqlEndpoint fetched now st
            = (st, Fetch.Throws (Fetch.Builtin TypeError)))).
Proof.
  unfold Fetch.fetchLastBlock. split; [| split].
  - destruct (Fetch.makeGraphqlRequest _ _ _ _) as [[resp [e|]]|t];
      [done | | done].
    destruct (Fetch.optional_get _ "0") eqn:E; try done;
      (destruct (Fetch.parseFetchedBlock _) as [network|t]; [| done]);
      unfold Fetch.getCachedNetwork, Fetch.endpoint_or_default; simpl;
      by rewrite lookup_insert_eq.
  - intros resp e ->. reflexivity.
  - intros resp ->. split; by intros ->.
Qed.

End Requests.

Lemma makeGraphqlRequest_outcomes_witness :
  (exists message,
      Fetch.makeGraphqlRequest (C := FetchToy.collaborators) "query" None
        FetchToy.account_answer Fetch.initial
      = Fetch.Throws (Fetch.Error message))
  /\ Fetch.makeGraphqlRequest (C := FetchToy.collaborators) "query" None
       (Fetch.Throws (Fetch.Failure JNull))
       (Fetch.setGraphqlEndpoint "http://node" Fetch.initial)
     = Fetch.Returns
         (JUndefined,
          Some {| Fetch.statusCode := 500;
                  Fetch.statusText := "Unknown Error: {}" |}).
Proof.
  split.
  - apply (makeGraphqlRequest_outcomes (C := FetchToy.collaborators)).
    reflexivity.
  - destruct (makeGraphqlRequest_outcomes (C := FetchToy.collaborators)
                "query" None (Fetch.Throws (Fetch.Failure JNull))
                (Fetch.setGraphqlEndpoint "http://node" Fetch.initial))
      as [_ H].
    destruct H as (_ & _ & H & _); [discriminate |].
    apply (H (Fetch.Failure JNull) "{}"); [by left | reflexivity].
Defined.

Lemma fetchAccountInternal_caches_witness :
  Fetch.getCachedAccount (C := FetchToy.collaborators) "B62q" "1"
    (Some "http://node")
    (fst (Fetch.fetchAccountInternal "B62q" None (Some "http://node")
            FetchToy.account_answer 5 Fetch.initial))
  = Some ("B62q", "1")
  /\ Fetch.fetchAccountInternal (C := FetchToy.collaborators) "B62q" None
       (Some "http://node")
       (FetchToy.answer (JObject {[ "data" := JObject {[ "account" := JNull ]} ]}))
       5 Fetch.initial
     = (Fetch.initial,
        Fetch.Returns
          {| Fetch.account := None;
             Fetch.error :=
               Some {| Fetch.statusCode := 404;
                       Fetch.statusText :=
                         "fetchAccount: Account with public key B62q does not exist." |} |}).
Proof.
  split.
  - pose proof (fetchAccountInternal_caches (C := FetchToy.collaborators)
                  "B62q" None (Some "http://node") FetchToy.account_answer 5
                  Fetch.initial) as [H _].
    vm_compute in H. destruct H as (_ & H & _). exact H.
  - destruct (fetchAccountInternal_caches (C := FetchToy.collaborators)
                "B62q" None (Some "http://node")
                (FetchToy.answer
                   (JObject {[ "data" := JObject {[ "account" := JNull ]} ]}))
                5 Fetch.initial) as [_ H].
    rewrite (H (JObject {[ "data" := JObject {[ "account" := JNull ]} ]})
               ltac:(reflexivity) ltac:(reflexivity)).
    reflexivity.
Defined.

Lemma fetchLastBlock_caches_witness :
  Fetch.blockchainLength
  <$> Fetch.getCachedNetwork (C := FetchToy.collaborators)
        (Some "http://node")
        (fst (Fetch.fetchLastBlock (Some "http://node") FetchToy.block_answer
                5 Fetch.initial))
  = Some "7"
  /\ snd (Fetch.fetchLastBlock (C := FetchToy.collaborators)
            (Some "http://node")
            (FetchToy.answer
               (JObject {[ "data" :=
                             JObject {[ "bestChain" :=
                                          JObject {[ "0" := JNull ]} ]} ]}))
            5 Fetch.initial)
     = Fetch.Throws (Fetch.Builtin TypeError).
Proof.
  split.
  - pose proof (fetchLastBlock_caches (C := FetchToy.collaborators)
                  (Some "http://node") FetchToy.block_answer 5 Fetch.initial)
      as [H _].
    destruct (Fetch.fetchLastBlock (Some "http://node") FetchToy.block_answer
                5 Fetch.initial) as [st' [network|t]] eqn:E;
      [| discriminate E].
    destruct H as (H & _). simpl. rewrite H. simpl.
    injection E as _ <-. reflexivity.
  - destruct (fetchLastBlock_caches (C := FetchToy.collaborators)
                (Some "http://node")
                (FetchToy.answer
                   (JObject {[ "data" :=
                                 JObject {[ "bestChain" :=
                                              JObject {[ "0" := JNull ]} ]} ]}))
                5 Fetch.initial) as (_ & _ & H).
    destruct (H _ ltac:(reflexivity)) as [_ Hnull].
    rewrite Hnull; reflexivity.
Defined.

(** * The last block *)

Section Blocks.

Context `{C : Fetch.Collaborators}.

(** What [parseFetchedBlock] reads of a block. *)
Lemma parseFetchedBlock_reads (m ps bs cs : gmap string jsval) :
  Fetch.parseFetchedBlock
    (JObject (<["protocolState" :=
                  JObject (<["blockchainState" := JObject bs]>
                             (<["consensusState" := JObject cs]> ps))]> m))
  = (snarkedLedgerHash ←
       Fetch.LedgerHash_fromBase58
         (default JUndefined (bs !! "snarkedLedgerHash"));
     blockchainLength ←
       Fetch.UInt32_from (default JUndefined (cs !! "blockHeight"));
     minWindowDensity ←
       Fetch.UInt32_from (default JUndefined (cs !! "minWindowDensity"));
     totalCurrency ←
       Fetch.UInt64_from (default JUndefined (cs !! "totalCurrency"));
     globalSlotSinceGenesis ←
       Fetch.UInt32_from (default JUndefined (cs !! "slotSinceGenesis"));
     nextEpochData ←
       Fetch.parseEpochData (default JUndefined (cs !! "nextEpochData"));
     stakingEpochData ←
       Fetch.parseEpochData (default JUndefined (cs !! "stakingEpochData"));
     mret {| Fetch.snarkedLedgerHash := snarkedLedgerHash;
             Fetch.blockchainLength := blockchainLength;
             Fetch.minWindowDensity := minWindowDensity;
             Fetch.totalCurrency := totalCurrency;
             Fetch.globalSlotSinceGenesis := globalSlotSinceGenesis;
             Fetch.nextEpochData := nextEpochData;
             Fetch.stakingEpochData := stakingEpochData |}).
Proof.
  unfold Fetch.parseFetchedBlock.
  cbn [default from_option id Fetch.lift mbind Fetch.outcome_bind get].
  repeat (first [rewrite lookup_insert_eq
                | rewrite lookup_insert_ne by done];
          cbn [default from_option id Fetch.lift mbind Fetch.outcome_bind get]).
  reflexivity.
Qed.

(** The network state read from a block does not depend on [utcDate], on
    [slot] or on any property other than the seven the state is made of;
    a block that is [null] or has no [protocolState] is a [TypeError]. *)
Theorem parseFetchedBlock_ignores_other_properties
    (m ps bs cs : gmap string jsval) (k : string) (v : jsval) :
  (k <> "snarkedLedgerHash" ->
   Fetch.parseFetchedBlock
     (JObject (<["protocolState" :=
                   JObject (<["blockchainState" := JObject (<[k := v]> bs)]>
                              (<["consensusState" := JObject cs]> ps))]> m))
   = Fetch.parseFetchedBlock
       (JObject (<["protocolState" :=
                     JObject (<["blockchainState" := JObject bs]>
                                (<["consensusState" := JObject cs]> ps))]> m)))
  /\ (k <> "blockHeight" -> k <> "minWindowDensity" ->
      k <> "totalCurrency" -> k <> "slotSinceGenesis" ->
      k <> "nextEpochData" -> k <> "stakingEpochData" ->
      Fetch.parseFetchedBlock
        (JObject (<["protocolState" :=
                      JObject (<["blockchainState" := JObject bs]>
                                 (<["consensusState" :=
                                      JObject (<[k := v]> cs)]> ps))]> m))
      = Fetch.parseFetchedBlock
          (JObject (<["protocolState" :=
                        JObject (<["blockchainState" := JObject bs]>
                                   (<["consensusState" := JObject cs]> ps))]>
                      m)))
  /\ Fetch.parseFetchedBlock JNull = Fetch.Throws (Fetch.Builtin TypeError)
  /\ (m !! "protocolState" = None ->
      Fetch.parseFetchedBlock (JObject m)
      = Fetch.Throws (Fetch.Builtin TypeError)).
Proof.
  split; [| split; [| split; [reflexivity |]]].
  - intros. rewrite !parseFetchedBlock_reads.
    by rewrite lookup_insert_ne by congruence.
  - intros. rewrite !parseFetchedBlock_reads.
    by rewrite !lookup_insert_ne by congruence.
  - intros H. unfold Fetch.parseFetchedBlock. cbn [get]. by rewrite H.
Qed.

End Blocks.

Lemma parseFetchedBlock_ignores_other_properties_witness :
  exists network,
    Fetch.parseFetchedBlock (C := FetchToy.collaborators)
      (FetchToy.block_of FetchToy.blockchain_state FetchToy.consensus_state)
    = Fetch.Returns network
    /\ Fetch.blockchainLength network = "7"
    /\ Fetch.parseFetchedBlock (C := FetchToy.collaborators)
         (FetchToy.block_of
            (<["utcDate" := JString "1"]> FetchToy.blockchain_state)
            FetchToy.consensus_state)
       = Fetch.Returns network
    /\ Fetch.parseFetchedBlock (C := FetchToy.collaborators)
         (FetchToy.block_of FetchToy.blockchain_state
            (<["slot" := JString "3"]> FetchToy.consensus_state))
       = Fetch.Returns network.
Proof.
  destruct (parseFetchedBlock_ignores_other_properties
              (C := FetchToy.collaborators) ∅ ∅
              FetchToy.blockchain_state FetchToy.consensus_state
              "utcDate" (JString "1")) as [Hdate _].
  destruct (parseFetchedBlock_ignores_other_properties
              (C := FetchToy.collaborators) ∅ ∅
              FetchToy.blockchain_state FetchToy.consensus_state
              "slot" (JString "3")) as (_ & Hslot & _).
  unfold FetchToy.block_of.
  rewrite Hdate by discriminate. rewrite Hslot by discriminate.
  destruct (Fetch.parseFetchedBlock _) as [network|t] eqn:E;
    [| discriminate E].
  exists network. split; [reflexivity |]. split; [| by split].
  vm_compute in E. injection E as <-. reflexivity.
Defined.
